(** * The Asana task sensor

    A shallow embedding of [custom_components/asana/sensor.py]: the parser of
    monitored-variable names, the paginated fetch, the bucketing of tasks by
    completion state and date, the evaluation of every rule and the projection
    to the sensor state.

    Conventions of the embedding.
    - A Python [str] is a [string]; a character is read as a Latin-1 code
      point, which is the range on which [str.lower] is modelled.
    - A Python [dict] is an association list in insertion order
      ([PyDict.dict]); assigning to an existing key replaces the value in
      place, as CPython does.
    - A Python exception is the [Raise] outcome of [result].
    - [logging.error] calls are kept as the list of messages a function
      emitted.
    - A [datetime.date] is its proleptic Gregorian ordinal; the reading of the
      clock ([datetime.date.today()]) is an argument. *)

From Stdlib Require Import String Ascii List ZArith NArith Lia Bool.
From Stdlib Require Import Sorted Permutation Mergesort Orders.
Import ListNotations.

Open Scope string_scope.
Open Scope list_scope.
Open Scope Z_scope.

(** ** Outcomes of Python code that may raise *)

Inductive exn : Type :=
| ValueError
| OverflowError
| KeyError.

Inductive result (A : Type) : Type :=
| Ok (a : A)
| Raise (e : exn).

Arguments Ok {A} a.
Arguments Raise {A} e.

Definition bind {A B : Type} (r : result A) (k : A -> result B) : result B :=
  match r with
  | Ok a => k a
  | Raise e => Raise e
  end.

Notation "x <- r ;; k" := (bind r (fun x => k))
  (at level 61, r at next level, right associativity).

(** ** Python strings *)

Module PyStr.

(** [c.lower()] on a Latin-1 code point: A-Z and the accented capitals
    U+00C0..U+00DE, the multiplication sign U+00D7 apart, move by 32. *)
Definition lower_char (c : ascii) : ascii :=
  let n := N_of_ascii c in
  if ((65 <=? n) && (n <=? 90)
      || (192 <=? n) && (n <=? 222) && negb (n =? 215))%N
  then ascii_of_N (n + 32)
  else c.

(** [s.lower()] *)
Fixpoint lower (s : string) : string :=
  match s with
  | EmptyString => EmptyString
  | String c s' => String (lower_char c) (lower s')
  end.

(** The first token of [s.split(sep)] and the tokens after it. *)
Fixpoint split_aux (sep : ascii) (s : string) : string * list string :=
  match s with
  | EmptyString => (EmptyString, [])
  | String c s' =>
      let (tok, rest) := split_aux sep s' in
      if Ascii.eqb c sep then (EmptyString, tok :: rest)
      else (String c tok, rest)
  end.

(** [s.split(sep)] for a one-character separator: never empty, and an
    empty token between two adjacent separators. *)
Definition split (sep : ascii) (s : string) : list string :=
  let (tok, rest) := split_aux sep s in tok :: rest.

(** [sub in s] *)
Fixpoint contains (sub s : string) : bool :=
  String.prefix sub s ||
  match s with
  | EmptyString => false
  | String _ s' => contains sub s'
  end.

(** [s[0:n]] *)
Definition slice_to (n : nat) (s : string) : string := String.substring 0 n s.

(** [a <= b] and [a >= b] on [str]: lexicographic on code points. *)
Definition le (a b : string) : bool := String.leb a b.
Definition ge (a b : string) : bool := String.leb b a.

(** [bool(s)] *)
Definition truthy (s : string) : bool :=
  match s with
  | EmptyString => false
  | String _ _ => true
  end.

(** Membership in a list of strings, [x in [a, b]]. *)
Definition mem (x : string) (l : list string) : bool :=
  existsb (String.eqb x) l.

Definition is_digit (c : ascii) : bool :=
  let n := N_of_ascii c in ((48 <=? n) && (n <=? 57))%N.

Definition digit_value (c : ascii) : Z := Z.of_N (N_of_ascii c) - 48.

(** [int(s)] on a string of decimal digits. *)
Definition int_of_digits (s : string) : Z :=
  fold_left (fun acc c => 10 * acc + digit_value c) (list_ascii_of_string s) 0.

(** A decimal numeral of [width] digits, zero padded (the [%02d], [%04d]
    of a format). *)
Fixpoint pad_digits (width : nat) (n : Z) : string :=
  match width with
  | O => EmptyString
  | S w => pad_digits w (n / 10) ++ String (ascii_of_N (Z.to_N (48 + n mod 10))) EmptyString
  end.

End PyStr.

(** ** Python dictionaries with string keys *)

Module PyDict.

Definition dict (V : Type) : Type := list (string * V).

Section Ops.
Context {V : Type}.

(** [d.get(k)] *)
Fixpoint get (k : string) (d : dict V) : option V :=
  match d with
  | [] => None
  | (k', v) :: d' => if String.eqb k' k then Some v else get k d'
  end.

(** [d[k] = v]: a present key keeps its position, a new key goes last. *)
Fixpoint set (k : string) (v : V) (d : dict V) : dict V :=
  match d with
  | [] => [(k, v)]
  | (k', v') :: d' =>
      if String.eqb k' k then (k', v) :: d' else (k', v') :: set k v d'
  end.

(** [k in d] *)
Definition mem (k : string) (d : dict V) : bool :=
  match get k d with
  | Some _ => true
  | None => false
  end.

Definition keys (d : dict V) : list string := map fst d.
Definition values (d : dict V) : list V := map snd d.
Definition items (d : dict V) : list (string * V) := d.

(** [d.get(k, default)] *)
Definition get_default (k : string) (default : V) (d : dict V) : V :=
  match get k d with
  | Some v => v
  | None => default
  end.

End Ops.

End PyDict.

Import PyDict.

(** ** Calendar dates ([datetime.date]) *)

Module Datetime.

(** [date.min.toordinal()] and [date.max.toordinal()]: 0001-01-01 and
    9999-12-31. *)
Definition min_ordinal : Z := 1.
Definition max_ordinal : Z := 3652059.

(** The largest day count a [timedelta] holds. *)
Definition max_delta_days : Z := 999999999.

Definition is_leap (y : Z) : bool :=
  (y mod 4 =? 0) && (negb (y mod 100 =? 0) || (y mod 400 =? 0)).

Definition days_in_month (y m : Z) : Z :=
  if m =? 2 then (if is_leap y then 29 else 28)
  else if (m =? 4) || (m =? 6) || (m =? 9) || (m =? 11) then 30
  else 31.

(** Days of the year [y] before the first of month [m]. *)
Definition days_before_month (y m : Z) : Z :=
  fold_left (fun acc k => if k <? m then acc + days_in_month y k else acc)
            [1; 2; 3; 4; 5; 6; 7; 8; 9; 10; 11; 12] 0.

(** Days before the first of January of year [y]. *)
Definition days_before_year (y : Z) : Z :=
  let p := y - 1 in p * 365 + p / 4 - p / 100 + p / 400.

(** [date(y, m, d).toordinal()] *)
Definition ymd2ord (y m d : Z) : Z :=
  days_before_year y + days_before_month y m + d.

(** [date.fromordinal(n)] as year, month and day, by the division into
    cycles of 400, 100, 4 and 1 years. *)
Definition ord2ymd (n : Z) : Z * Z * Z :=
  let n0 := n - 1 in
  let n400 := n0 / 146097 in
  let r400 := n0 mod 146097 in
  let n100 := r400 / 36524 in
  let r100 := r400 mod 36524 in
  let n4 := r100 / 1461 in
  let r4 := r100 mod 1461 in
  let n1 := r4 / 365 in
  let r1 := r4 mod 365 in
  let year := n400 * 400 + 1 + n100 * 100 + n4 * 4 + n1 in
  if (n1 =? 4) || (n100 =? 4) then (year - 1, 12, 31)
  else
    let month :=
      fold_left (fun acc k => if days_before_month year k <=? r1 then k else acc)
                [1; 2; 3; 4; 5; 6; 7; 8; 9; 10; 11; 12] 1 in
    (year, month, r1 - days_before_month year month + 1).

(** [timedelta(days=n)]: the day count, when it is representable. *)
Definition timedelta (n : Z) : result Z :=
  if (- max_delta_days <=? n) && (n <=? max_delta_days) then Ok n
  else Raise OverflowError.

(** [d + delta] and [d - delta] on dates: the result has to be a date. *)
Definition add (d delta : Z) : result Z :=
  let r := d + delta in
  if (min_ordinal <=? r) && (r <=? max_ordinal) then Ok r
  else Raise OverflowError.

Definition sub (d delta : Z) : result Z := add d (- delta).

(** [d.strftime('%Y-%m-%d')], the year on four digits. *)
Definition strftime_Ymd (d : Z) : string :=
  let '(y, m, dd) := ord2ymd d in
  PyStr.pad_digits 4 y ++ "-" ++ PyStr.pad_digits 2 m ++ "-" ++ PyStr.pad_digits 2 dd.

End Datetime.

(** ** Module-level constants of sensor.py *)

Definition _DEFAULT_NAME : string := "asana".

Definition _ASANA_API_URL : string := "https://app.asana.com/api/1.0".
Definition _ASANA_API_TASK_FIELDS : string :=
  "id,name,created_at,due_on,completed,completed_at".

Definition _ASANA_TIMEFRAME_COMPLETED : string := "past".
Definition _ASANA_TIMEFRAME_NOT_COMPLETED : string := "future".
Definition _ASANA_TIMEFRAMES : list string :=
  [_ASANA_TIMEFRAME_COMPLETED; _ASANA_TIMEFRAME_NOT_COMPLETED].

Definition _ASANA_SENSOR_TYPE_COUNTER : string := "counter".
Definition _ASANA_SENSOR_TYPE_LIST : string := "list".
Definition _ASANA_SENSOR_TASK_TYPES : list string :=
  [_ASANA_SENSOR_TYPE_COUNTER; _ASANA_SENSOR_TYPE_LIST].

Definition _ASANA_TASK_DATE_ALL : string := "all".

(** ** Data model *)

(** The value under ['task_date'] of a rule: the string ['all'] or an [int]. *)
Inductive task_date : Type :=
| DateAll
| DateDays (n : Z).

(** The dictionary built for one monitored variable, with its four keys
    ['name'], ['sensor_type'], ['timeframe'] and ['task_date']. *)
Record variable_config : Type := mkVariable {
  var_name : string;
  var_sensor_type : string;
  var_timeframe : string;
  var_task_date : task_date
}.

(** A task of the API, at the fields the sensor reads; [None] is a field
    that is missing or null. *)
Record task : Type := mkTask {
  task_name : string;
  task_completed : bool;
  task_due_on : option string;
  task_completed_at : option string
}.

(** The ['next_page'] object of a response. *)
Record next_page : Type := mkNextPage {
  np_uri : option string
}.

(** The JSON object of a response, at the fields the fetch reads: an absent
    ['data'] is [None], and so is an absent, null or empty ['next_page']. *)
Record response_object : Type := mkResponse {
  resp_data : option (list task);
  resp_next_page : option next_page
}.

(** [response.json()]: [None] is a null body. *)
Definition response_data : Type := option response_object.

(** The values the sensor exposes: [None], a counter, a task list, or the
    placeholder string. *)
Inductive pyval : Type :=
| PyNone
| PyInt (n : Z)
| PyList (l : list string)
| PyStr (s : string).

Definition task_buckets : Type := dict (dict (list string)).

Record AsanaTaskApi : Type := mkApi {
  _token : string;
  _workspace : string;
  _since_days_ago : Z
}.

Record AsanaTaskSensor : Type := mkSensor {
  _state_attribute_name : option string;
  _monitored_variables : dict variable_config;
  _api : AsanaTaskApi;
  _task_data : task_buckets;
  _name : string;
  _attributes : dict pyval;
  _state : pyval
}.

(** The platform configuration handed to the constructor. *)
Record config : Type := mkConfig {
  conf_access_token : string;
  conf_workspace : string;
  conf_monitored_variables : list string;
  conf_name : string
}.

(** ** Rule parser *)

(** The longest run of decimal digits at the head of [s], and what follows. *)
Fixpoint span_digits (s : string) : string * string :=
  match s with
  | EmptyString => (EmptyString, EmptyString)
  | String c s' =>
      if PyStr.is_digit c
      then let (ds, rest) := span_digits s' in (String c ds, rest)
      else (EmptyString, s)
  end.

(** [p] is a prefix of [s], letters compared without case (re.IGNORECASE). *)
Fixpoint prefix_nocase (p s : string) : bool :=
  match p, s with
  | EmptyString, _ => true
  | String _ _, EmptyString => false
  | String a p', String b s' =>
      Ascii.eqb (PyStr.lower_char a) (PyStr.lower_char b) && prefix_nocase p' s'
  end.

(** The pattern [([\d]+)(?:day)] matched at the head of [s]: the digits of
    its group.  The run of digits is greedy and cannot be shortened, as the
    character after it has to be a [d]. *)
Definition match_days_at (s : string) : option string :=
  let (ds, rest) := span_digits s in
  if PyStr.truthy ds && prefix_nocase "day" rest then Some ds else None.

(** [re.search(r'(?:_)([\d]+)(?:day)', s, re.IGNORECASE)]: the group of the
    leftmost match. *)
Fixpoint search_days (s : string) : option string :=
  match s with
  | EmptyString => None
  | String c s' =>
      if Ascii.eqb c "_" then
        match match_days_at s' with
        | Some ds => Some ds
        | None => search_days s'
        end
      else search_days s'
  end.

Definition _get_days_from_monitored_variable (monitored_variable : string)
  : option task_date :=
  if PyStr.contains _ASANA_TASK_DATE_ALL monitored_variable then Some DateAll
  else
    match search_days monitored_variable with
    | None => None
    | Some ds => Some (DateDays (PyStr.int_of_digits ds))
    end.

(** The state the loop of the parser carries: the instance attribute
    [_state_attribute_name], the dictionary under construction and the
    messages logged so far. *)
Record parser_state : Type := mkParser {
  ps_state_attribute_name : option string;
  ps_variables : dict variable_config;
  ps_log : list string
}.

Definition log_error (msg : string) (st : parser_state) : parser_state :=
  mkParser (ps_state_attribute_name st) (ps_variables st) (ps_log st ++ [msg]).

(** One iteration of the loop of [_process_monitored_variables].  The
    unpacking into three names raises [ValueError] unless the split yields
    exactly three parts. *)
Definition process_variable (st : parser_state) (raw : string)
  : result parser_state :=
  let variable := PyStr.lower raw in
  match PyStr.split "_" variable with
  | [variable_type; variable_timeframe; _] =>
      match _get_days_from_monitored_variable variable with
      | None =>
          Ok (log_error ("Invalid date range in monitored variables: " ++ variable) st)
      | Some variable_days =>
          if negb (PyStr.mem variable_type _ASANA_SENSOR_TASK_TYPES) then
            Ok (log_error ("Invalid attribute type in monitored variables: " ++ variable) st)
          else if negb (PyStr.mem variable_timeframe _ASANA_TIMEFRAMES) then
            Ok (log_error ("Invalid timeframe in monitored variables: " ++ variable) st)
          else
            Ok (mkParser
                  (match ps_state_attribute_name st with
                   | None => Some variable
                   | Some chosen => Some chosen
                   end)
                  (PyDict.set variable
                     (mkVariable variable variable_type variable_timeframe variable_days)
                     (ps_variables st))
                  (ps_log st))
      end
  | _ => Raise ValueError
  end.

(** The loop over the configured names, from a given parser state. *)
Fixpoint process_variables (st : parser_state) (monitored_variables : list string)
  : result parser_state :=
  match monitored_variables with
  | [] => Ok st
  | raw :: more =>
      st' <- process_variable st raw ;;
      process_variables st' more
  end.

(** [_process_monitored_variables]: the dictionary starts empty; the state
    attribute name is the one the instance holds at the call. *)
Definition _process_monitored_variables (state_attribute_name : option string)
    (monitored_variables : list string) : result parser_state :=
  process_variables (mkParser state_attribute_name [] []) monitored_variables.

(** The body of the loop of [_get_max_since_days_ago]. *)
Definition max_since_step (max_days_ago : Z) (variable_config : variable_config) : Z :=
  if String.eqb (var_timeframe variable_config) _ASANA_TIMEFRAME_NOT_COMPLETED
  then max_days_ago
  else
    match var_task_date variable_config with
    | DateAll => max_days_ago
    | DateDays days_ago => Z.max days_ago max_days_ago
    end.

Definition _get_max_since_days_ago (monitored_variables : dict variable_config) : Z :=
  fold_left max_since_step (PyDict.values monitored_variables) 0.

(** ** Task source: the paginated fetch *)

(** [AsanaTaskApi._get_since_date]: the date, [today] being the reading of
    the clock. *)
Definition _get_since_date (today : Z) (api : AsanaTaskApi) : result string :=
  delta <- Datetime.timedelta (_since_days_ago api) ;;
  fetch_date <- Datetime.sub today delta ;;
  Ok (Datetime.strftime_Ymd fetch_date).

Definition _get_api_endpoint (today : Z) (api : AsanaTaskApi) : result string :=
  since_date <- _get_since_date today api ;;
  Ok (_ASANA_API_URL ++ "/tasks?"
      ++ "workspace=" ++ _workspace api
      ++ "&assignee=me"
      ++ "&opt_fields=" ++ _ASANA_API_TASK_FIELDS
      ++ "&completed_since=" ++ since_date
      ++ "&limit=100")%string.

(** [bool(api_url)] for a URL that may be [None]. *)
Definition url_truthy (api_url : option string) : bool :=
  match api_url with
  | Some url => PyStr.truthy url
  | None => false
  end.

(** [next_page.get('uri') if next_page else None] *)
Definition next_url (next : option next_page) : option string :=
  match next with
  | Some page => np_uri page
  | None => None
  end.

(** The URL requested when [api_url] is truthy. *)
Definition url_text (api_url : option string) : string :=
  match api_url with
  | Some url => url
  | None => EmptyString
  end.

(** [not response_data or 'data' not in response_data] *)
Definition response_unexpected (answer : response_data) : bool :=
  match answer with
  | None => true
  | Some body =>
      match resp_data body with
      | None => true
      | Some _ => false
      end
  end.

(** [response_data.get('data', [])] *)
Definition response_tasks (answer : response_data) : list task :=
  match answer with
  | Some body =>
      match resp_data body with
      | Some page_tasks => page_tasks
      | None => []
      end
  | None => []
  end.

(** [response_data.get('next_page')] *)
Definition response_next (answer : response_data) : option next_page :=
  match answer with
  | Some body => resp_next_page body
  | None => None
  end.

Section Transport.

(** The remote service: a state and the answer to one GET request, given
    the URL and the value of the Authorization header. *)
Variable World : Type.
Variable http_get : string -> string -> World -> response_data * World.

(** What a fetch leaves: the value returned ([None] is Python's [None]),
    the messages logged and the state of the service. *)
Definition fetched : Type := option (list task) * list string * World.

(** The [while api_url:] loop of [get_api_data], [fuel] bounding the
    number of requests; [None] is a loop that needs more of it. *)
Fixpoint fetch_pages (fuel : nat) (authorization : string)
    (api_url : option string) (tasks_data : list task) (w : World)
  : option fetched :=
  if url_truthy api_url then
    match fuel with
    | O => None
    | S fuel' =>
        let (answer, w') := http_get (url_text api_url) authorization w in
        if response_unexpected answer
        then Some (None, ["Response not expected."], w')
        else fetch_pages fuel' authorization (next_url (response_next answer))
                         (tasks_data ++ response_tasks answer) w'
    end
  else Some (Some tasks_data, [], w).

(** The bodies the loop receives with [fuel] requests at most, in the
    order of the requests; the loop stops at the first unexpected one. *)
Fixpoint pages_received (fuel : nat) (authorization : string)
    (api_url : option string) (w : World) : list response_data :=
  if url_truthy api_url then
    match fuel with
    | O => []
    | S fuel' =>
        let (answer, w') := http_get (url_text api_url) authorization w in
        answer ::
        (if response_unexpected answer then []
         else pages_received fuel' authorization (next_url (response_next answer)) w')
    end
  else [].

(** [AsanaTaskApi.get_api_data].  The endpoint is computed before any
    request, and its date may be out of range. *)
Definition get_api_data (fuel : nat) (today : Z) (api : AsanaTaskApi) (w : World)
  : option (result fetched) :=
  match _get_api_endpoint today api with
  | Raise e => Some (Raise e)
  | Ok api_url =>
      match fetch_pages fuel ("Bearer " ++ _token api) (Some api_url) [] w with
      | None => None
      | Some out => Some (Ok out)
      end
  end.

End Transport.

(** ** Bucketer *)

(** The date key of a task: the first ten characters of the timestamp, or
    ['all'] when the timestamp is falsy (missing, null or empty). *)
Definition date_key (stamp : option string) : string :=
  match stamp with
  | Some s => if PyStr.truthy s then PyStr.slice_to 10 s else _ASANA_TASK_DATE_ALL
  | None => _ASANA_TASK_DATE_ALL
  end.

Definition task_group_of (t : task) : string :=
  if task_completed t then _ASANA_TIMEFRAME_COMPLETED
  else _ASANA_TIMEFRAME_NOT_COMPLETED.

Definition task_date_of (t : task) : string :=
  if task_completed t then date_key (task_completed_at t)
  else date_key (task_due_on t).

(** The string stored for a task under the key [date]. *)
Definition display_name (date : string) (t : task) : string :=
  if String.eqb date _ASANA_TASK_DATE_ALL then task_name t
  else date ++ " - " ++ task_name t.

(** The body of the loop of [_store_task_data]; a subscript on a missing
    key raises [KeyError]. *)
Definition store_task (data : task_buckets) (t : task) : result task_buckets :=
  let task_group := task_group_of t in
  let task_date := task_date_of t in
  match PyDict.get task_group data with
  | None => Raise KeyError
  | Some group =>
      let group1 :=
        if negb (PyDict.mem task_date group) then PyDict.set task_date [] group
        else group in
      let shown := display_name task_date t in
      match PyDict.get task_date group1 with
      | None => Raise KeyError
      | Some names =>
          Ok (PyDict.set task_group
                (PyDict.set task_date (names ++ [shown]) group1) data)
      end
  end.

Fixpoint store_tasks (data : task_buckets) (tasks_data : list task)
  : result task_buckets :=
  match tasks_data with
  | [] => Ok data
  | t :: more => data' <- store_task data t ;; store_tasks data' more
  end.

Definition empty_buckets : task_buckets :=
  [(_ASANA_TIMEFRAME_COMPLETED, []); (_ASANA_TIMEFRAME_NOT_COMPLETED, [])].

Definition _store_task_data (tasks_data : list task) : result task_buckets :=
  store_tasks empty_buckets tasks_data.

(** ** Rule evaluator *)

Module StrOrder <: TotalLeBool.
Definition t : Type := string.
Definition leb : string -> string -> bool := String.leb.
Definition leb_total : forall a b : string, leb a b = true \/ leb b a = true :=
  String.leb_total.
End StrOrder.

Module StrSort := Sort StrOrder.

(** [sorted(keys)] on strings. *)
Definition sorted (l : list string) : list string := StrSort.sort l.

Definition _task_day_matches_timeframe
    (task_day variable_timeframe variable_date : string) : bool :=
  if String.eqb variable_timeframe _ASANA_TIMEFRAME_COMPLETED then
    if String.eqb task_day _ASANA_TASK_DATE_ALL then false
    else PyStr.ge task_day variable_date
  else if String.eqb variable_timeframe _ASANA_TIMEFRAME_NOT_COMPLETED then
    if String.eqb variable_date _ASANA_TASK_DATE_ALL then true
    else PyStr.le task_day variable_date
  else false.

(** The boundary [variable_date] of a rule: ['all'], or the date
    [variable_days] before or after [today]. *)
Definition variable_date_of (today : Z) (variable_config : variable_config)
  : result string :=
  match var_task_date variable_config with
  | DateAll => Ok _ASANA_TASK_DATE_ALL
  | DateDays variable_days =>
      date_difference <- Datetime.timedelta variable_days ;;
      boundary <-
        (if String.eqb (var_timeframe variable_config) _ASANA_TIMEFRAME_COMPLETED
         then Datetime.sub today date_difference
         else Datetime.add today date_difference) ;;
      Ok (Datetime.strftime_Ymd boundary)
  end.

(** The loop that builds [matching_task_list]; [task_day] ranges over the
    keys of [selected_tasks_data], so the subscript finds it. *)
Definition matching_task_list (selected_tasks_data : dict (list string))
    (variable_timeframe variable_date : string) : list string :=
  fold_left
    (fun matching task_day =>
       if _task_day_matches_timeframe task_day variable_timeframe variable_date
       then matching ++ PyDict.get_default task_day [] selected_tasks_data
       else matching)
    (sorted (PyDict.keys selected_tasks_data)) [].

(** The value one rule gets in [_update_sensor_attributes]. *)
Definition variable_value (today : Z) (data : task_buckets)
    (variable_config : variable_config) : result pyval :=
  let variable_timeframe := var_timeframe variable_config in
  let selected_tasks_data := PyDict.get_default variable_timeframe [] data in
  variable_date <- variable_date_of today variable_config ;;
  let matching := matching_task_list selected_tasks_data variable_timeframe variable_date in
  Ok (if String.eqb (var_sensor_type variable_config) _ASANA_SENSOR_TYPE_LIST
      then PyList matching
      else PyInt (Z.of_nat (List.length matching))).

Definition set_attributes (s : AsanaTaskSensor) (attributes : dict pyval)
  : AsanaTaskSensor :=
  mkSensor (_state_attribute_name s) (_monitored_variables s) (_api s)
           (_task_data s) (_name s) attributes (_state s).

Definition set_task_data (s : AsanaTaskSensor) (data : task_buckets)
  : AsanaTaskSensor :=
  mkSensor (_state_attribute_name s) (_monitored_variables s) (_api s)
           data (_name s) (_attributes s) (_state s).

Definition set_state (s : AsanaTaskSensor) (v : pyval) : AsanaTaskSensor :=
  mkSensor (_state_attribute_name s) (_monitored_variables s) (_api s)
           (_task_data s) (_name s) (_attributes s) v.

(** The loop of [_update_sensor_attributes] over the items of the rules. *)
Fixpoint update_attributes (today : Z) (data : task_buckets)
    (variables : list (string * variable_config)) (attributes : dict pyval)
  : result (dict pyval) :=
  match variables with
  | [] => Ok attributes
  | (variable_name, variable_config) :: more =>
      v <- variable_value today data variable_config ;;
      update_attributes today data more (PyDict.set variable_name v attributes)
  end.

Definition _update_sensor_attributes (today : Z) (s : AsanaTaskSensor)
  : result AsanaTaskSensor :=
  attributes <- update_attributes today (_task_data s)
                  (PyDict.items (_monitored_variables s)) (_attributes s) ;;
  Ok (set_attributes s attributes).

Definition _update_sensor_state (s : AsanaTaskSensor) : result AsanaTaskSensor :=
  if match _state_attribute_name s with
     | Some chosen => PyStr.truthy chosen
     | None => false
     end
  then
    match PyDict.get (match _state_attribute_name s with Some c => c | None => "" end)
                     (_attributes s) with
    | Some v => Ok (set_state s v)
    | None => Raise KeyError
    end
  else Ok (set_state s (PyStr "OK")).

(** ** The sensor: construction and update cycle *)

(** [AsanaTaskSensor.__init__]: the sensor and the messages the parser
    logged. *)
Definition __init__ (cfg : config) : result (AsanaTaskSensor * list string) :=
  parsed <- _process_monitored_variables None (conf_monitored_variables cfg) ;;
  let variables := ps_variables parsed in
  let since_days_ago := _get_max_since_days_ago variables in
  Ok (mkSensor (ps_state_attribute_name parsed)
               variables
               (mkApi (conf_access_token cfg) (conf_workspace cfg) since_days_ago)
               []
               (conf_name cfg)
               (map (fun variable => (variable, PyNone)) (PyDict.keys variables))
               PyNone,
      ps_log parsed).

Section Update.

Variable World : Type.
Variable http_get : string -> string -> World -> response_data * World.

(** The part of [update] after a fetch that returned tasks. *)
Definition refresh (today : Z) (s : AsanaTaskSensor) (tasks_data : list task)
  : result AsanaTaskSensor :=
  data <- _store_task_data tasks_data ;;
  s1 <- _update_sensor_attributes today (set_task_data s data) ;;
  _update_sensor_state s1.

(** [AsanaTaskSensor.update]: the outcome for the sensor, the messages
    logged and the state of the service; [None] is a fetch that needs more
    fuel.  An exception before the first request leaves the service as it
    was. *)
Definition update (fuel : nat) (today : Z) (s : AsanaTaskSensor) (w : World)
  : option (result AsanaTaskSensor * list string * World) :=
  match get_api_data World http_get fuel today (_api s) w with
  | None => None
  | Some (Raise e) => Some (Raise e, [], w)
  | Some (Ok (None, log, w')) =>
      Some (Ok s, log ++ ["Error fetching Asana API data."], w')
  | Some (Ok (Some tasks_data, log, w')) =>
      Some (refresh today s tasks_data, log, w')
  end.

End Update.

(** A service that plays a script: it answers the requests with the listed
    bodies in order, whatever the URL, and with a null body afterwards. *)
Definition scripted_get (url authorization : string) (script : list response_data)
  : response_data * list response_data :=
  match script with
  | [] => (None, [])
  | answer :: more => (answer, more)
  end.


(** ** Definitions used in the statements *)

(** The name splits into exactly three parts, which the unpacking needs. *)
Definition three_parts (raw : string) : bool :=
  match PyStr.split "_" (PyStr.lower raw) with
  | [_; _; _] => true
  | _ => false
  end.

(** The rule a name of three parts stands for, when the parser accepts it. *)
Definition accepted_rule (raw : string) : option variable_config :=
  let variable := PyStr.lower raw in
  match PyStr.split "_" variable with
  | [variable_type; variable_timeframe; _] =>
      match _get_days_from_monitored_variable variable with
      | Some variable_days =>
          if PyStr.mem variable_type _ASANA_SENSOR_TASK_TYPES
             && PyStr.mem variable_timeframe _ASANA_TIMEFRAMES
          then Some (mkVariable variable variable_type variable_timeframe variable_days)
          else None
      | None => None
      end
  | _ => None
  end.

(** The rules of the accepted names, in the order of the list. *)
Fixpoint accepted_rules (names : list string) : list variable_config :=
  match names with
  | [] => []
  | raw :: more =>
      match accepted_rule raw with
      | Some rule => rule :: accepted_rules more
      | None => accepted_rules more
      end
  end.

(** The dictionary the loop builds from a list of accepted rules. *)
Definition store_rules (rules : list variable_config) (variables : dict variable_config)
  : dict variable_config :=
  fold_left (fun d rule => PyDict.set (var_name rule) rule d) rules variables.

Definition first_chosen (chosen : option string) (rules : list variable_config)
  : option string :=
  match chosen with
  | Some c => Some c
  | None => hd_error (map var_name rules)
  end.

(** The task is stored in the timeframe [group] under the key [key]. *)
Definition stored_under (group key : string) (t : task) : bool :=
  String.eqb (task_group_of t) group && String.eqb (task_date_of t) key.

(** The display strings of the tasks stored under a key, in the order of
    the task list. *)
Definition shown_under (group key : string) (tasks_data : list task) : list string :=
  map (display_name key) (filter (stored_under group key) tasks_data).

(** A key is in a bucket only with a list that is not empty. *)
Definition entry_of (names : list string) : option (list string) :=
  match names with
  | [] => None
  | _ :: _ => Some names
  end.

(** [data[group].get(key)] *)
Definition bucket_entry (data : task_buckets) (group key : string)
  : option (list string) :=
  match PyDict.get group data with
  | Some bucket => PyDict.get key bucket
  | None => None
  end.


(** The buckets hold the tasks of [seen]: under every key of each of the two
    timeframes, the display strings of the tasks stored there, in order. *)
Definition holds (data : task_buckets) (seen : list task) : Prop :=
  exists past future,
    data = [(_ASANA_TIMEFRAME_COMPLETED, past); (_ASANA_TIMEFRAME_NOT_COMPLETED, future)]
    /\ (forall key, PyDict.get key past
                    = entry_of (shown_under _ASANA_TIMEFRAME_COMPLETED key seen))
    /\ (forall key, PyDict.get key future
                    = entry_of (shown_under _ASANA_TIMEFRAME_NOT_COMPLETED key seen)).

(** The day counts of the rules on the past with a bounded horizon. *)
Definition past_days_of_rule (rule : variable_config) : list Z :=
  if String.eqb (var_timeframe rule) _ASANA_TIMEFRAME_COMPLETED then
    match var_task_date rule with
    | DateDays n => [n]
    | DateAll => []
    end
  else [].

Definition bounded_past_days (variables : dict variable_config) : list Z :=
  flat_map past_days_of_rule (PyDict.values variables).

(** Every character is a decimal digit. *)
Fixpoint all_digits (s : string) : bool :=
  match s with
  | EmptyString => true
  | String c s' => PyStr.is_digit c && all_digits s'
  end.

(** What the parser guarantees of a rule it stores. *)
Definition well_formed_rule (rule : variable_config) : Prop :=
  In (var_sensor_type rule) _ASANA_SENSOR_TASK_TYPES
  /\ In (var_timeframe rule) _ASANA_TIMEFRAMES
  /\ match var_task_date rule with
     | DateAll => True
     | DateDays n => 0 <= n
     end.

(** A sensor that has been updated once, and a service whose second page
    has no ['data'] field. *)
Definition stale_sensor : AsanaTaskSensor :=
  mkSensor (Some "counter_future_all")
           [("counter_future_all",
             mkVariable "counter_future_all" "counter" "future" DateAll)]
           (mkApi "token" "workspace" 0)
           [("past", []); ("future", [("all", ["water the plants"])])]
           "asana"
           [("counter_future_all", PyInt 1)]
           (PyInt 1).

Definition second_page_broken : list response_data :=
  [Some (mkResponse (Some [mkTask "pay rent" false (Some "2024-02-01") None])
                    (Some (mkNextPage (Some "https://app.asana.com/api/1.0/tasks?offset=x"))));
   Some (mkResponse None None)].

Definition empty_config : config := mkConfig "token" "workspace" [] "asana".

Definition unconfigured_sensor : AsanaTaskSensor :=
  mkSensor None [] (mkApi "token" "workspace" 0) [] "asana" [] PyNone.

(** ** The entity surface and further definitions used in the statements *)

(** The three Hass.io properties of the sensor. *)
Definition name (s : AsanaTaskSensor) : string := _name s.
Definition state (s : AsanaTaskSensor) : pyval := _state s.
Definition device_state_attributes (s : AsanaTaskSensor) : dict pyval := _attributes s.

(** A service that never stops paginating: every page is well formed and
    names a next page. *)
Definition endless_get (url authorization : string) (w : unit)
  : response_data * unit :=
  (Some (mkResponse (Some [mkTask "again" false None None])
                    (Some (mkNextPage (Some "https://app.asana.com/api/1.0/tasks?offset=y")))),
   tt).

(** The number of strings a bucket holds, over all its keys. *)
Definition bucket_size (bucket : dict (list string)) : nat :=
  List.length (concat (PyDict.values bucket)).

(** The letters [day] at the head of [s], in any case. *)
Definition day_any_case (s : string) : Prop :=
  exists d a y rest,
    s = String d (String a (String y rest))
    /\ PyStr.lower_char d = "d"%char
    /\ PyStr.lower_char a = "a"%char
    /\ PyStr.lower_char y = "y"%char.

(** * Properties *)

(** ** The embedding on concrete inputs *)

Example lower_mixed : PyStr.lower "Counter_PAST_7Day" = "counter_past_7day".
Proof. reflexivity. Qed.

Example split_three : PyStr.split "_" "list_future_all" = ["list"; "future"; "all"].
Proof. reflexivity. Qed.

Example split_adjacent : PyStr.split "_" "a_b__c" = ["a"; "b"; ""; "c"].
Proof. reflexivity. Qed.

Example split_empty : PyStr.split "_" "" = [""].
Proof. reflexivity. Qed.

Example date_below_all : PyStr.ge "2024-01-01" "all" = false.
Proof. reflexivity. Qed.

Example strftime_samples :
  map Datetime.strftime_Ymd [738893; 738945; 738946; 693596; 3652059]
  = ["2024-01-08"; "2024-02-29"; "2024-03-01"; "1900-01-01"; "9999-12-31"].
Proof. reflexivity. Qed.

Example ordinal_round_trip :
  Datetime.ord2ymd (Datetime.ymd2ord 2024 2 29) = (2024, 2, 29).
Proof. reflexivity. Qed.

Example days_leftmost_match :
  _get_days_from_monitored_variable "list_past_12DAYS" = Some (DateDays 12)
  /\ _get_days_from_monitored_variable "list_past_x" = None
  /\ _get_days_from_monitored_variable "counter_past_allday123" = Some DateAll.
Proof. repeat split; reflexivity. Qed.

(** ** Dictionaries *)

Section DictFacts.

Context {V : Type}.
Implicit Types (d : dict V) (k : string) (v : V).

Lemma get_set_same k v d : PyDict.get k (PyDict.set k v d) = Some v.
Proof.
  induction d as [|[k' v'] d IH]; simpl.
  - now rewrite String.eqb_refl.
  - destruct (String.eqb k' k) eqn:E; simpl; rewrite E; auto.
Qed.

Lemma get_set_other k k' v d :
  k <> k' -> PyDict.get k' (PyDict.set k v d) = PyDict.get k' d.
Proof.
  intros Hne. induction d as [|[k0 v0] d IH]; simpl.
  - destruct (String.eqb_spec k k'); congruence.
  - destruct (String.eqb_spec k0 k) as [->|Hk]; simpl.
    + destruct (String.eqb_spec k k'); congruence.
    + now rewrite IH.
Qed.

Lemma get_In k d : PyDict.get k d <> None <-> In k (PyDict.keys d).
Proof.
  induction d as [|[k' v'] d IH]; simpl.
  - split; [congruence | tauto].
  - destruct (String.eqb_spec k' k) as [->|Hk].
    + split; [auto | congruence].
    + rewrite IH. split; [auto | intros [?|?]; congruence || auto].
Qed.

Lemma keys_set_present k v d :
  PyDict.get k d <> None -> PyDict.keys (PyDict.set k v d) = PyDict.keys d.
Proof.
  induction d as [|[k' v'] d IH]; simpl; [congruence|].
  destruct (String.eqb_spec k' k) as [->|Hk]; simpl; auto.
  intros H. now rewrite IH.
Qed.

Lemma keys_set_absent k v d :
  PyDict.get k d = None -> PyDict.keys (PyDict.set k v d) = PyDict.keys d ++ [k].
Proof.
  induction d as [|[k' v'] d IH]; simpl; auto.
  destruct (String.eqb_spec k' k) as [->|Hk]; simpl; [congruence|].
  intros H. now rewrite IH.
Qed.

Lemma values_set_In k v d x :
  In x (PyDict.values (PyDict.set k v d)) -> x = v \/ In x (PyDict.values d).
Proof.
  induction d as [|[k' v'] d IH]; simpl.
  - intros [H|[]]; auto.
  - destruct (String.eqb k' k); simpl; intros [H|H]; auto.
    destruct (IH H); auto.
Qed.

End DictFacts.

(** ** The fetch *)

Section FetchFacts.

Variable World : Type.
Variable http_get : string -> string -> World -> response_data * World.

(** An unexpected page among those received turns the whole fetch into
    [None], whatever was accumulated before it. *)
Lemma fetch_pages_unexpected fuel authorization :
  forall api_url tasks_data w,
    existsb response_unexpected
            (pages_received World http_get fuel authorization api_url w) = true ->
    exists w',
      fetch_pages World http_get fuel authorization api_url tasks_data w
      = Some (None, ["Response not expected."], w').
Proof.
  induction fuel as [|fuel IH]; intros api_url tasks_data w; simpl.
  - destruct (url_truthy api_url); simpl; discriminate.
  - destruct (url_truthy api_url); simpl; [|discriminate].
    destruct (http_get (url_text api_url) authorization w) as [answer w'].
    simpl. destruct (response_unexpected answer) eqn:E; simpl.
    + intros _. now exists w'.
    + apply IH.
Qed.

(** When the loop returns tasks, every page received was as expected and the
    tasks are those of the pages, in the order of the requests. *)
Lemma fetch_pages_tasks fuel authorization :
  forall api_url tasks_data w all_tasks log w',
    fetch_pages World http_get fuel authorization api_url tasks_data w
    = Some (Some all_tasks, log, w') ->
    let pages := pages_received World http_get fuel authorization api_url w in
    existsb response_unexpected pages = false
    /\ all_tasks = tasks_data ++ flat_map response_tasks pages.
Proof.
  induction fuel as [|fuel IH]; intros api_url tasks_data w all_tasks log w'; simpl.
  - destruct (url_truthy api_url); [discriminate|].
    intros [= <- _ _]. now rewrite app_nil_r.
  - destruct (url_truthy api_url).
    + destruct (http_get (url_text api_url) authorization w) as [answer w1].
      destruct (response_unexpected answer) eqn:E; [discriminate|].
      intros H. apply IH in H. destruct H as [H1 H2]. simpl.
      rewrite E. simpl. split; [exact H1|].
      now rewrite H2, <- app_assoc.
    + intros [= <- _ _]. now rewrite app_nil_r.
Qed.

End FetchFacts.

(** ** The update cycle when the fetch fails *)

(** An unexpected page makes [get_api_data] return [None] and [update]
    return its sensor. *)
Lemma update_after_unexpected_page
    (World : Type) (http_get : string -> string -> World -> response_data * World)
    (fuel : nat) (today : Z) (s : AsanaTaskSensor) (w : World) (api_url : string) :
  _get_api_endpoint today (_api s) = Ok api_url ->
  existsb response_unexpected
    (pages_received World http_get fuel ("Bearer " ++ _token (_api s))
                    (Some api_url) w) = true ->
  exists w',
    get_api_data World http_get fuel today (_api s) w
    = Some (Ok (None, ["Response not expected."], w'))
    /\ update World http_get fuel today s w
       = Some (Ok s, ["Response not expected."; "Error fetching Asana API data."], w').
Proof.
  intros Hurl Hbad.
  destruct (fetch_pages_unexpected World http_get fuel _ (Some api_url) [] w Hbad)
    as [w' Hfetch].
  exists w'. unfold update, get_api_data. rewrite Hurl, Hfetch. split; reflexivity.
Qed.

(** C7.  If a page received during a fetch is empty or has no ['data'] field,
    [get_api_data] returns [None] and not the tasks accumulated from the pages
    before it, and [update] then returns the sensor it was given: the task
    buckets, the attributes and the state are those from before the call. *)
Theorem failed_fetch_changes_nothing
    (World : Type) (http_get : string -> string -> World -> response_data * World)
    (fuel : nat) (today : Z) (s : AsanaTaskSensor) (w : World) (api_url : string) :
  _get_api_endpoint today (_api s) = Ok api_url ->
  existsb response_unexpected
    (pages_received World http_get fuel ("Bearer " ++ _token (_api s))
                    (Some api_url) w) = true ->
  exists w' s',
    get_api_data World http_get fuel today (_api s) w
    = Some (Ok (None, ["Response not expected."], w'))
    /\ update World http_get fuel today s w
       = Some (Ok s', ["Response not expected."; "Error fetching Asana API data."], w')
    /\ s' = s
    /\ _task_data s' = _task_data s
    /\ _attributes s' = _attributes s
    /\ _state s' = _state s.
Proof.
  intros Hurl Hbad.
  destruct (update_after_unexpected_page World http_get fuel today s w api_url Hurl Hbad)
    as [w' [Hget Hupd]].
  exists w', s. repeat split; assumption.
Qed.

Lemma failed_fetch_changes_nothing_witness :
  exists w' s',
    get_api_data _ scripted_get 2 738893 (_api stale_sensor) second_page_broken
    = Some (Ok (None, ["Response not expected."], w'))
    /\ update _ scripted_get 2 738893 stale_sensor second_page_broken
       = Some (Ok s', ["Response not expected."; "Error fetching Asana API data."], w')
    /\ s' = stale_sensor
    /\ _task_data s' = _task_data stale_sensor
    /\ _attributes s' = _attributes stale_sensor
    /\ _state s' = _state stale_sensor.
Proof.
  apply (failed_fetch_changes_nothing _ scripted_get 2 738893 stale_sensor
           second_page_broken
           "https://app.asana.com/api/1.0/tasks?workspace=workspace&assignee=me&opt_fields=id,name,created_at,due_on,completed,completed_at&completed_since=2024-01-08&limit=100");
    reflexivity.
Defined.

(** C3, as the code has it.  On the first update cycle, when the first
    response is unexpected (the body [{}] for one), the fetch aborts and the
    sensor is the one the constructor built: every rule name is mapped to
    [None] and the state is [None], also when no rule was parsed. *)
Theorem first_update_malformed_keeps_defaults
    (World : Type) (http_get : string -> string -> World -> response_data * World)
    (cfg : config) (s : AsanaTaskSensor) (log : list string)
    (fuel : nat) (today : Z) (w : World) (api_url : string) :
  __init__ cfg = Ok (s, log) ->
  _get_api_endpoint today (_api s) = Ok api_url ->
  response_unexpected
    (fst (http_get api_url ("Bearer " ++ _token (_api s))%string w)) = true ->
  exists s' w',
    update World http_get (S fuel) today s w
    = Some (Ok s', ["Response not expected."; "Error fetching Asana API data."], w')
    /\ _attributes s'
       = map (fun variable => (variable, PyNone)) (PyDict.keys (_monitored_variables s))
    /\ _task_data s' = []
    /\ _state s' = PyNone.
Proof.
  intros Hinit Hurl Hbad.
  assert (Hpages :
    existsb response_unexpected
      (pages_received World http_get (S fuel) ("Bearer " ++ _token (_api s))%string
                      (Some api_url) w) = true).
  { destruct api_url as [|c u].
    - unfold _get_api_endpoint in Hurl.
      destruct (_get_since_date today (_api s)); simpl in Hurl; discriminate.
    - cbn [pages_received url_truthy PyStr.truthy url_text].
      destruct (http_get (String c u) ("Bearer " ++ _token (_api s))%string w)
        as [answer w1].
      cbn [fst] in Hbad. cbn [existsb]. now rewrite Hbad. }
  destruct (update_after_unexpected_page World http_get (S fuel) today s w api_url
              Hurl Hpages) as [w' [_ Hupd]].
  exists s, w'. split; [exact Hupd|].
  unfold __init__ in Hinit.
  destruct (_process_monitored_variables None (conf_monitored_variables cfg));
    simpl in Hinit; [|discriminate].
  injection Hinit as <- _. simpl. auto.
Qed.

Lemma first_update_malformed_keeps_defaults_witness :
  exists s' w',
    update _ scripted_get 1 738893 unconfigured_sensor [Some (mkResponse None None)]
    = Some (Ok s', ["Response not expected."; "Error fetching Asana API data."], w')
    /\ _attributes s'
       = map (fun variable => (variable, PyNone))
             (PyDict.keys (_monitored_variables unconfigured_sensor))
    /\ _task_data s' = []
    /\ _state s' = PyNone.
Proof.
  apply (first_update_malformed_keeps_defaults _ scripted_get empty_config
           unconfigured_sensor [] 0 738893 [Some (mkResponse None None)]
           "https://app.asana.com/api/1.0/tasks?workspace=workspace&assignee=me&opt_fields=id,name,created_at,due_on,completed,completed_at&completed_since=2024-01-08&limit=100");
    reflexivity.
Defined.

(** C3, as the spec has it, fails: with no rule configured and the body [{}]
    as first response, the state after the first update is [None], not the
    placeholder ["OK"]. *)
Lemma first_update_malformed_state_is_not_OK :
  __init__ empty_config = Ok (unconfigured_sensor, [])
  /\ _monitored_variables unconfigured_sensor = []
  /\ update _ scripted_get 1 738893 unconfigured_sensor [Some (mkResponse None None)]
     = Some (Ok unconfigured_sensor,
             ["Response not expected."; "Error fetching Asana API data."], [])
  /\ _state unconfigured_sensor = PyNone
  /\ _state unconfigured_sensor <> PyStr "OK".
Proof.
  repeat split; try reflexivity. discriminate.
Qed.

(** The placeholder is what a cycle whose fetch succeeds produces when no
    rule was parsed. *)
Example placeholder_after_good_fetch :
  update _ scripted_get 1 738893 unconfigured_sensor [Some (mkResponse (Some []) None)]
  = Some (Ok (mkSensor None [] (mkApi "token" "workspace" 0)
                       [("past", []); ("future", [])] "asana" [] (PyStr "OK")),
          [], []).
Proof. reflexivity. Qed.

(** ** Names the parser cannot unpack *)

(** C1.  A name that does not split into three parts makes the parser raise:
    the unpacking fails with [ValueError] before any validation, nothing is
    logged, the names after it are not looked at, and the constructor fails
    with it. *)
Theorem two_part_name_raises :
  _process_monitored_variables None ["counter_past"; "list_future_all"]
  = Raise ValueError
  /\ __init__ (mkConfig "token" "workspace" ["counter_past"; "list_future_all"] "asana")
     = Raise ValueError.
Proof. split; reflexivity. Qed.

(** A bad kind, timeframe or horizon is logged and the name dropped; the
    names after it are still parsed. *)
Example invalid_fields_are_logged :
  _process_monitored_variables None
    ["foo_past_1day"; "list_now_3day"; "list_past_x"; "list_future_all"]
  = Ok (mkParser (Some "list_future_all")
          [("list_future_all", mkVariable "list_future_all" "list" "future" DateAll)]
          ["Invalid attribute type in monitored variables: foo_past_1day";
           "Invalid timeframe in monitored variables: list_now_3day";
           "Invalid date range in monitored variables: list_past_x"]).
Proof. reflexivity. Qed.

(** ** A past rule with the horizon ['all'] *)

(** C2.  For the rule [list_past_all] the boundary is ['all'], and the one
    completed task, bucketed under its date, is not in the result: a date key
    is compared with the string ['all'] and is below it. *)
Theorem past_all_rule_selects_nothing :
  let completed := mkTask "pay rent" true None (Some "2024-01-05T10:00:00.000Z") in
  let rule := mkVariable "list_past_all" "list" "past" DateAll in
  exists s log s',
    __init__ (mkConfig "token" "workspace" ["list_past_all"] "asana") = Ok (s, log)
    /\ _monitored_variables s = [("list_past_all", rule)]
    /\ variable_date_of 738893 rule = Ok "all"
    /\ update _ scripted_get 1 738893 s [Some (mkResponse (Some [completed]) None)]
       = Some (Ok s', [], [])
    /\ PyDict.get "past" (_task_data s') = Some [("2024-01-05", ["2024-01-05 - pay rent"])]
    /\ _task_day_matches_timeframe "2024-01-05" "past" "all" = false
    /\ PyDict.get "list_past_all" (_attributes s') = Some (PyList []).
Proof.
  simpl. eexists _, _, _. repeat split; reflexivity.
Qed.

(** The sibling rule on the other timeframe takes every key. *)
Example future_all_rule_selects_all :
  variable_value 738893
    [("past", []); ("future", [("2024-02-01", ["2024-02-01 - pay rent"]); ("all", ["water the plants"])])]
    (mkVariable "list_future_all" "list" "future" DateAll)
  = Ok (PyList ["2024-02-01 - pay rent"; "water the plants"]).
Proof. reflexivity. Qed.

(** ** Counters and lists *)


(** ** The parser *)

Lemma span_digits_all_digits s :
  all_digits (fst (span_digits s)) = true.
Proof.
  induction s as [|c s IH]; simpl; auto.
  destruct (PyStr.is_digit c) eqn:E; simpl; auto.
  destruct (span_digits s) as [ds rest]. simpl in *. now rewrite E.
Qed.

Lemma search_days_all_digits s ds :
  search_days s = Some ds -> all_digits ds = true.
Proof.
  induction s as [|c s IH]; simpl; [discriminate|].
  destruct (Ascii.eqb c "_"); auto.
  unfold match_days_at.
  pose proof (span_digits_all_digits s) as Hd.
  destruct (span_digits s) as [ds' rest]. simpl in Hd.
  destruct (PyStr.truthy ds' && prefix_nocase "day" rest); auto.
  now intros [= <-].
Qed.

Lemma digit_value_nonneg c : PyStr.is_digit c = true -> 0 <= PyStr.digit_value c <= 9.
Proof.
  unfold PyStr.is_digit, PyStr.digit_value. intros H.
  apply andb_prop in H. destruct H as [H1 H2].
  apply N.leb_le in H1, H2. lia.
Qed.

Lemma int_of_digits_nonneg s : all_digits s = true -> 0 <= PyStr.int_of_digits s.
Proof.
  unfold PyStr.int_of_digits.
  assert (Hacc : forall acc, 0 <= acc -> all_digits s = true ->
            0 <= fold_left (fun a c => 10 * a + PyStr.digit_value c)
                           (list_ascii_of_string s) acc).
  { induction s as [|c s IH]; cbn [list_ascii_of_string fold_left all_digits];
      intros acc Hacc H; auto.
    apply andb_prop in H. destruct H as [Hc Hs].
    apply IH; auto. pose proof (digit_value_nonneg c Hc) as Hd. lia. }
  apply Hacc. lia.
Qed.

Lemma days_nonneg variable n :
  _get_days_from_monitored_variable variable = Some (DateDays n) -> 0 <= n.
Proof.
  unfold _get_days_from_monitored_variable.
  destruct (PyStr.contains _ASANA_TASK_DATE_ALL variable); [discriminate|].
  destruct (search_days variable) as [ds|] eqn:E; [|discriminate].
  intros [= <-]. apply int_of_digits_nonneg. eapply search_days_all_digits; eauto.
Qed.

Lemma mem_In x l : PyStr.mem x l = true <-> In x l.
Proof.
  unfold PyStr.mem. rewrite existsb_exists. split.
  - intros [y [Hy E]]. apply String.eqb_eq in E. now subst.
  - intros H. exists x. split; auto. apply String.eqb_refl.
Qed.

Lemma accepted_rule_well_formed raw rule :
  accepted_rule raw = Some rule ->
  well_formed_rule rule /\ var_name rule = PyStr.lower raw.
Proof.
  unfold accepted_rule.
  destruct (PyStr.split "_" (PyStr.lower raw)) as [|ty [|tf [|h [|]]]]; try discriminate.
  destruct (_get_days_from_monitored_variable (PyStr.lower raw)) as [d|] eqn:Ed;
    [|discriminate].
  destruct (PyStr.mem ty _ASANA_SENSOR_TASK_TYPES) eqn:Ety; [|discriminate].
  destruct (PyStr.mem tf _ASANA_TIMEFRAMES) eqn:Etf; [|discriminate].
  intros [= <-]. split; [|reflexivity].
  unfold well_formed_rule; cbn [var_sensor_type var_timeframe var_task_date].
  split; [now apply mem_In|]. split; [now apply mem_In|].
  destruct d; [exact I | eapply days_nonneg; eauto].
Qed.

(** One iteration of the loop, in terms of [accepted_rule]: a name of three
    parts is stored under its lower-cased form when it is accepted, and only
    logged otherwise. *)
Lemma process_variable_three_parts st raw :
  three_parts raw = true ->
  exists st',
    process_variable st raw = Ok st'
    /\ match accepted_rule raw with
       | Some rule =>
           ps_state_attribute_name st'
           = match ps_state_attribute_name st with
             | None => Some (var_name rule)
             | Some chosen => Some chosen
             end
           /\ ps_variables st' = PyDict.set (var_name rule) rule (ps_variables st)
           /\ ps_log st' = ps_log st
       | None =>
           ps_state_attribute_name st' = ps_state_attribute_name st
           /\ ps_variables st' = ps_variables st
           /\ exists msg, ps_log st' = ps_log st ++ [msg]
       end.
Proof.
  unfold three_parts, process_variable, accepted_rule.
  destruct (PyStr.split "_" (PyStr.lower raw)) as [|ty [|tf [|h [|]]]]; try discriminate.
  intros _.
  assert (Hdrop : forall msg,
    exists st', Ok (log_error msg st) = Ok st'
      /\ ps_state_attribute_name st' = ps_state_attribute_name st
      /\ ps_variables st' = ps_variables st
      /\ exists m, ps_log st' = ps_log st ++ [m]).
  { intros msg. exists (log_error msg st). simpl. eauto. }
  destruct (_get_days_from_monitored_variable (PyStr.lower raw)) as [d|];
    [|apply Hdrop].
  destruct (PyStr.mem ty _ASANA_SENSOR_TASK_TYPES); cbn [negb andb]; [|apply Hdrop].
  destruct (PyStr.mem tf _ASANA_TIMEFRAMES); cbn [negb andb]; [|apply Hdrop].
  eexists. split; [reflexivity|]. cbn. auto.
Qed.

Lemma process_variable_Ok_three_parts st raw st' :
  process_variable st raw = Ok st' -> three_parts raw = true.
Proof.
  unfold three_parts, process_variable.
  destruct (PyStr.split "_" (PyStr.lower raw)) as [|ty [|tf [|h [|]]]];
    discriminate || reflexivity.
Qed.

(** The loop as a whole, on names of three parts. *)
Lemma process_variables_three_parts names :
  forall st,
    Forall (fun raw => three_parts raw = true) names ->
    exists st',
      process_variables st names = Ok st'
      /\ ps_state_attribute_name st'
         = first_chosen (ps_state_attribute_name st) (accepted_rules names)
      /\ ps_variables st' = store_rules (accepted_rules names) (ps_variables st).
Proof.
  induction names as [|raw names IH]; intros st Hall; simpl.
  - exists st. repeat split. now destruct (ps_state_attribute_name st).
  - inversion Hall as [|? ? Hraw Hrest]; subst.
    destruct (process_variable_three_parts st raw Hraw) as [st1 [E1 H1]].
    rewrite E1. simpl.
    destruct (IH st1 Hrest) as [st' [E' [Hsan Hvars]]].
    exists st'. split; [exact E'|].
    destruct (accepted_rule raw) as [rule|].
    + destruct H1 as [Hs [Hv _]]. rewrite Hsan, Hvars, Hs, Hv. simpl.
      split; [|reflexivity].
      now destruct (ps_state_attribute_name st).
    + destruct H1 as [Hs [Hv _]]. now rewrite Hsan, Hvars, Hs, Hv.
Qed.

Lemma process_variables_Ok_three_parts names :
  forall st st',
    process_variables st names = Ok st' ->
    Forall (fun raw => three_parts raw = true) names.
Proof.
  induction names as [|raw names IH]; intros st st'; simpl; auto.
  destruct (process_variable st raw) as [st1|] eqn:E; simpl; [|discriminate].
  intros H. constructor; eauto using process_variable_Ok_three_parts.
Qed.

Lemma accepted_rules_well_formed names :
  Forall well_formed_rule (accepted_rules names).
Proof.
  induction names as [|raw names IH]; simpl; auto.
  destruct (accepted_rule raw) as [rule|] eqn:E; auto.
  constructor; auto. now apply accepted_rule_well_formed in E.
Qed.

Lemma store_rules_values (P : variable_config -> Prop) rules :
  forall variables,
    Forall P rules -> Forall P (PyDict.values variables) ->
    Forall P (PyDict.values (store_rules rules variables)).
Proof.
  induction rules as [|rule rules IH]; intros variables Hr Hv; simpl; auto.
  inversion Hr; subst. apply IH; auto.
  apply Forall_forall. intros x Hx. apply values_set_In in Hx.
  destruct Hx as [->|Hx]; auto. rewrite Forall_forall in Hv. auto.
Qed.

(** Every rule of a parsed rule set has a known kind, a known timeframe and
    a day count that is not negative. *)
Lemma parsed_rules_well_formed names chosen st :
  _process_monitored_variables chosen names = Ok st ->
  Forall well_formed_rule (PyDict.values (ps_variables st)).
Proof.
  unfold _process_monitored_variables. intros H.
  pose proof (process_variables_Ok_three_parts _ _ _ H) as Hall.
  destruct (process_variables_three_parts names (mkParser chosen [] []) Hall)
    as [st' [E [_ Hv]]].
  rewrite H in E. injection E as <-. rewrite Hv. simpl.
  apply store_rules_values; [apply accepted_rules_well_formed | constructor].
Qed.

(** ** The fetch horizon *)

Lemma max_since_fold rules :
  forall acc,
    Forall well_formed_rule rules ->
    acc <= fold_left max_since_step rules acc
    /\ (forall n, In n (flat_map past_days_of_rule rules) ->
        0 <= n <= fold_left max_since_step rules acc)
    /\ (fold_left max_since_step rules acc = acc
        \/ In (fold_left max_since_step rules acc) (flat_map past_days_of_rule rules)).
Proof.
  induction rules as [|rule rules IH]; intros acc Hwf; cbn [flat_map fold_left].
  - split; [lia|]. split; [intros n []|now left].
  - inversion Hwf as [|? ? [_ [Htf Hd]] Hrest]; subst.
    destruct Htf as [Htf|[Htf|[]]].
    + (* a rule on the past *)
      assert (Hstep : max_since_step acc rule
                      = match var_task_date rule with
                        | DateAll => acc
                        | DateDays n0 => Z.max n0 acc
                        end)
        by (unfold max_since_step; rewrite <- Htf; reflexivity).
      assert (Hdays : past_days_of_rule rule
                      = match var_task_date rule with
                        | DateAll => []
                        | DateDays n0 => [n0]
                        end)
        by (unfold past_days_of_rule; rewrite <- Htf;
            destruct (var_task_date rule); reflexivity).
      rewrite Hstep, Hdays.
      destruct (var_task_date rule) as [|n0]; cbn [app].
      * apply IH; auto.
      * destruct (IH (Z.max n0 acc) Hrest) as [H1 [H2 H3]].
        cbn in Hd.
        split; [lia|]. split.
        -- intros n [<-|Hn]; [lia | auto].
        -- destruct H3 as [H3|H3]; [|right; right; exact H3].
           destruct (Z.max_spec n0 acc) as [[_ E]|[_ E]].
           ++ left. congruence.
           ++ right. left. congruence.
    + (* a rule on the future *)
      assert (Hstep : max_since_step acc rule = acc)
        by (unfold max_since_step; rewrite <- Htf; reflexivity).
      assert (Hdays : past_days_of_rule rule = [])
        by (unfold past_days_of_rule; rewrite <- Htf; reflexivity).
      rewrite Hstep, Hdays. apply IH; auto.
Qed.

(** C8.  The fetch horizon the constructor hands to the API object is the
    largest day count among the rules on the past with a bounded horizon:
    it bounds all of them, it is one of them when there is one, and it is 0
    when there is none. *)
Theorem fetch_horizon_is_max_past_days
    (cfg : config) (s : AsanaTaskSensor) (log : list string) :
  __init__ cfg = Ok (s, log) ->
  let days := bounded_past_days (_monitored_variables s) in
  let horizon := _since_days_ago (_api s) in
  (forall n, In n days -> n <= horizon)
  /\ (days = [] -> horizon = 0)
  /\ (days <> [] -> In horizon days).
Proof.
  unfold __init__. intros Hinit.
  destruct (_process_monitored_variables None (conf_monitored_variables cfg))
    as [st|] eqn:Hparse; simpl in Hinit; [|discriminate].
  injection Hinit as <- _. cbn [_monitored_variables _api _since_days_ago].
  pose proof (parsed_rules_well_formed _ _ _ Hparse) as Hwf.
  destruct (max_since_fold (PyDict.values (ps_variables st)) 0 Hwf)
    as [H1 [H2 H3]].
  unfold bounded_past_days, _get_max_since_days_ago.
  split; [intros n Hn; now apply H2|]. split.
  - intros E. destruct H3 as [H3|H3]; [exact H3|]. rewrite E in H3. destruct H3.
  - intros Hne. destruct H3 as [H3|H3]; [|exact H3].
    rewrite H3.
    destruct (flat_map past_days_of_rule (PyDict.values (ps_variables st)))
      as [|n days] eqn:E; [congruence|].
    left. specialize (H2 n (or_introl eq_refl)). lia.
Qed.

Lemma fetch_horizon_is_max_past_days_witness :
  let cfg := mkConfig "token" "workspace"
               ["counter_past_7day"; "list_past_30day"; "list_future_90day"; "counter_past_all"]
               "asana" in
  exists s log,
    __init__ cfg = Ok (s, log)
    /\ _since_days_ago (_api s) = 30
    /\ (forall n, In n (bounded_past_days (_monitored_variables s)) ->
        n <= _since_days_ago (_api s))
    /\ (bounded_past_days (_monitored_variables s) = [] -> _since_days_ago (_api s) = 0)
    /\ (bounded_past_days (_monitored_variables s) <> [] ->
        In (_since_days_ago (_api s)) (bounded_past_days (_monitored_variables s))).
Proof.
  intros cfg.
  destruct (__init__ cfg) as [[s log]|] eqn:E; [|discriminate E].
  exists s, log. split; [reflexivity|]. split.
  - vm_compute in E. injection E as <- _. reflexivity.
  - exact (fetch_horizon_is_max_past_days cfg s log E).
Defined.

(** ** The state attribute and duplicate names *)



Lemma store_rules_keys_NoDup rules :
  forall variables,
    NoDup (PyDict.keys variables) ->
    NoDup (PyDict.keys (store_rules rules variables)).
Proof.
  induction rules as [|rule rules IH]; intros variables Hnd; simpl; auto.
  apply IH.
  destruct (PyDict.get (var_name rule) variables) as [old|] eqn:E.
  - rewrite keys_set_present; [exact Hnd | congruence].
  - rewrite keys_set_absent by exact E.
    apply NoDup_app; [exact Hnd | repeat constructor; intros [] |].
    intros k Hk [<-|[]]. apply get_In in Hk. congruence.
Qed.




Example first_accepted_skips_rejected :
  exists st,
    _process_monitored_variables None
      ["list_now_3day"; "List_Future_All"; "counter_past_7day"; "LIST_FUTURE_ALL"] = Ok st
    /\ ps_state_attribute_name st = Some "list_future_all"
    /\ PyDict.keys (ps_variables st) = ["list_future_all"; "counter_past_7day"].
Proof. eexists. repeat split. Qed.

(** ** The bucketer *)

Lemma entry_of_app names shown : entry_of (names ++ [shown]) = Some (names ++ [shown]).
Proof. destruct names; reflexivity. Qed.

Lemma get_default_entry_of (bucket : dict (list string)) key names :
  PyDict.get key bucket = entry_of names ->
  PyDict.get_default key [] bucket = names.
Proof.
  unfold PyDict.get_default. intros ->. now destruct names.
Qed.

(** What the two statements on a bucket do: the key is created when it is
    missing, and the display string goes last in its list. *)
Lemma bucket_append (bucket : dict (list string)) date shown :
  exists bucket',
    (let group1 :=
       if negb (PyDict.mem date bucket) then PyDict.set date [] bucket else bucket in
     match PyDict.get date group1 with
     | None => None
     | Some names => Some (PyDict.set date (names ++ [shown]) group1)
     end) = Some bucket'
    /\ forall key,
         PyDict.get key bucket'
         = if String.eqb date key
           then Some (PyDict.get_default date [] bucket ++ [shown])
           else PyDict.get key bucket.
Proof.
  unfold PyDict.mem, PyDict.get_default.
  destruct (PyDict.get date bucket) as [names|] eqn:E; cbn [negb].
  - rewrite E. eexists. split; [reflexivity|].
    intros key. destruct (String.eqb_spec date key) as [<-|Hne].
    + apply get_set_same.
    + now apply get_set_other.
  - rewrite get_set_same. eexists. split; [reflexivity|].
    intros key. destruct (String.eqb_spec date key) as [<-|Hne].
    + apply get_set_same.
    + rewrite !get_set_other by exact Hne. reflexivity.
Qed.

Lemma shown_under_snoc group key seen t :
  shown_under group key (seen ++ [t])
  = shown_under group key seen
    ++ (if stored_under group key t then [display_name key t] else []).
Proof.
  unfold shown_under. rewrite filter_app, map_app. simpl.
  now destruct (stored_under group key t).
Qed.

Lemma store_task_holds data seen t :
  holds data seen ->
  exists data', store_task data t = Ok data' /\ holds data' (seen ++ [t]).
Proof.
  intros [past [future [-> [Hp Hf]]]].
  unfold store_task, task_group_of, task_date_of.
  destruct (task_completed t) eqn:Ec.
  - cbn [PyDict.get String.eqb Ascii.eqb Bool.eqb _ASANA_TIMEFRAME_COMPLETED
         _ASANA_TIMEFRAME_NOT_COMPLETED andb].
    set (date := date_key (task_completed_at t)).
    destruct (bucket_append past date (display_name date t)) as [past' [E Hget]].
    cbv zeta in E.
    destruct (PyDict.get date
                (if negb (PyDict.mem date past) then PyDict.set date [] past else past))
      as [names|]; [|discriminate].
    injection E as E. rewrite E.
    eexists. split; [reflexivity|].
    exists past', future. split; [reflexivity|]. split; intros key.
    + rewrite Hget, shown_under_snoc.
      unfold stored_under, task_group_of, task_date_of. rewrite Ec.
      fold date. cbn [String.eqb Ascii.eqb Bool.eqb _ASANA_TIMEFRAME_COMPLETED andb].
      destruct (String.eqb_spec date key) as [<-|Hne].
      * rewrite (get_default_entry_of past date _ (Hp date)).
        symmetry. apply entry_of_app.
      * rewrite app_nil_r. apply Hp.
    + rewrite shown_under_snoc.
      unfold stored_under, task_group_of. rewrite Ec.
      cbn [String.eqb Ascii.eqb Bool.eqb _ASANA_TIMEFRAME_COMPLETED
           _ASANA_TIMEFRAME_NOT_COMPLETED andb].
      rewrite app_nil_r. apply Hf.
  - cbn [PyDict.get String.eqb Ascii.eqb Bool.eqb _ASANA_TIMEFRAME_COMPLETED
         _ASANA_TIMEFRAME_NOT_COMPLETED andb].
    set (date := date_key (task_due_on t)).
    destruct (bucket_append future date (display_name date t)) as [future' [E Hget]].
    cbv zeta in E.
    destruct (PyDict.get date
                (if negb (PyDict.mem date future) then PyDict.set date [] future
                 else future))
      as [names|]; [|discriminate].
    injection E as E. rewrite E.
    eexists. split; [reflexivity|].
    exists past, future'. split; [reflexivity|]. split; intros key.
    + rewrite shown_under_snoc.
      unfold stored_under, task_group_of. rewrite Ec.
      cbn [String.eqb Ascii.eqb Bool.eqb _ASANA_TIMEFRAME_COMPLETED
           _ASANA_TIMEFRAME_NOT_COMPLETED andb].
      rewrite app_nil_r. apply Hp.
    + rewrite Hget, shown_under_snoc.
      unfold stored_under, task_group_of, task_date_of. rewrite Ec.
      fold date.
      cbn [String.eqb Ascii.eqb Bool.eqb _ASANA_TIMEFRAME_NOT_COMPLETED andb].
      destruct (String.eqb_spec date key) as [<-|Hne].
      * rewrite (get_default_entry_of future date _ (Hf date)).
        symmetry. apply entry_of_app.
      * rewrite app_nil_r. apply Hf.
Qed.

Lemma store_tasks_holds tasks_data :
  forall data seen,
    holds data seen ->
    exists data', store_tasks data tasks_data = Ok data' /\ holds data' (seen ++ tasks_data).
Proof.
  induction tasks_data as [|t more IH]; intros data seen H; simpl.
  - exists data. now rewrite app_nil_r.
  - destruct (store_task_holds data seen t H) as [data1 [E H1]].
    rewrite E. simpl.
    destruct (IH data1 (seen ++ [t]) H1) as [data' [E' H']].
    exists data'. split; [exact E'|]. now rewrite <- app_assoc in H'.
Qed.

(** C6.  Bucketing a fetched task list returns, and in the result:
    a completed task is in the timeframe ["past"] under the first ten
    characters of its completion timestamp, or under ["all"] when it has
    none; any other task is in the timeframe ["future"] under the first ten
    characters of its due date, or under ["all"] when it has none; the string
    stored is ["<date> - <name>"] under a date and the bare name under
    ["all"]; and each key of a timeframe holds exactly the strings of the
    tasks placed there, in the order of the task list.  A timestamp is absent
    when the field is missing, null or the empty string. *)
Theorem bucketing_by_state_and_date (tasks_data : list task) :
  exists data,
    _store_task_data tasks_data = Ok data
    /\ PyDict.keys data = ["past"; "future"]
    /\ (forall group key,
          In group ["past"; "future"] ->
          bucket_entry data group key = entry_of (shown_under group key tasks_data))
    /\ forall t,
         In t tasks_data ->
         let stamp := if task_completed t then task_completed_at t else task_due_on t in
         let group := if task_completed t then "past" else "future" in
         let key :=
           match stamp with
           | Some (String c rest) => String.substring 0 10 (String c rest)
           | _ => "all"
           end in
         let shown :=
           if String.eqb key "all" then task_name t
           else (key ++ " - " ++ task_name t)%string in
         stored_under group key t = true
         /\ display_name key t = shown
         /\ exists names, bucket_entry data group key = Some names /\ In shown names.
Proof.
  assert (H0 : holds empty_buckets []).
  { exists [], []. repeat split. }
  destruct (store_tasks_holds tasks_data empty_buckets [] H0)
    as [data [E [past [future [-> [Hp Hf]]]]]].
  simpl in Hp, Hf.
  exists [(_ASANA_TIMEFRAME_COMPLETED, past); (_ASANA_TIMEFRAME_NOT_COMPLETED, future)].
  split; [exact E|]. split; [reflexivity|]. split.
  - intros group key [<-|[<-|[]]]; [apply Hp | apply Hf].
  - intros t Hin stamp group key shown.
    assert (Hkey : task_date_of t = key /\ task_group_of t = group).
    { unfold task_date_of, task_group_of, key, stamp, group, date_key.
      destruct (task_completed t); split; try reflexivity.
      - destruct (task_completed_at t) as [[|c rest]|]; reflexivity.
      - destruct (task_due_on t) as [[|c rest]|]; reflexivity. }
    destruct Hkey as [Hdate Hgroup].
    assert (Hstored : stored_under group key t = true).
    { unfold stored_under. now rewrite Hdate, Hgroup, !String.eqb_refl. }
    split; [exact Hstored|]. split; [reflexivity|].
    assert (Hshown : In shown (shown_under group key tasks_data)).
    { unfold shown_under. apply in_map_iff. exists t. split; [reflexivity|].
      apply filter_In. now split. }
    exists (shown_under group key tasks_data). split; [|exact Hshown].
    assert (Hentry : bucket_entry
                       [(_ASANA_TIMEFRAME_COMPLETED, past);
                        (_ASANA_TIMEFRAME_NOT_COMPLETED, future)] group key
                     = entry_of (shown_under group key tasks_data)).
    { unfold group. destruct (task_completed t); [apply Hp | apply Hf]. }
    rewrite Hentry.
    destruct (shown_under group key tasks_data); [destruct Hshown | reflexivity].
Qed.

Lemma bucketing_by_state_and_date_witness :
  let tasks_data :=
    [mkTask "a" true None (Some "2024-01-01T00:00:00");
     mkTask "b" false (Some "2024-06-01") None;
     mkTask "c" true None None;
     mkTask "e" true (Some "2024-03-03") (Some "2024-01-01T09:30:00.000Z")] in
  exists data,
    _store_task_data tasks_data = Ok data
    /\ bucket_entry data "past" "2024-01-01" = Some ["2024-01-01 - a"; "2024-01-01 - e"]
    /\ bucket_entry data "past" "all" = Some ["c"]
    /\ bucket_entry data "future" "2024-06-01" = Some ["2024-06-01 - b"]
    /\ bucket_entry data "future" "all" = None.
Proof.
  intros tasks_data.
  destruct (bucketing_by_state_and_date tasks_data) as [data [E [_ [H _]]]].
  exists data. split; [exact E|].
  repeat split; rewrite H by (simpl; auto); reflexivity.
Defined.

Example bucketing_sample :
  _store_task_data
    [mkTask "a" true None (Some "2024-01-01T00:00:00");
     mkTask "b" false (Some "2024-06-01") None;
     mkTask "c" true None None;
     mkTask "d" false None None;
     mkTask "e" true (Some "2024-03-03") (Some "2024-01-01T09:30:00.000Z")]
  = Ok [("past", [("2024-01-01", ["2024-01-01 - a"; "2024-01-01 - e"]); ("all", ["c"])]);
        ("future", [("2024-06-01", ["2024-06-01 - b"]); ("all", ["d"])])].
Proof. reflexivity. Qed.

(** ** The order on strings and the evaluation of a rule *)

Lemma ascii_compare_N a b :
  Ascii.compare a b = N.compare (N_of_ascii a) (N_of_ascii b).
Proof. reflexivity. Qed.

Lemma ascii_compare_Eq a b : Ascii.compare a b = Eq -> a = b.
Proof. apply Ascii.compare_eq_iff. Qed.

Lemma string_compare_Eq a b : String.compare a b = Eq -> a = b.
Proof. apply String.compare_eq_iff. Qed.

Lemma string_compare_Lt_trans a :
  forall b c,
    String.compare a b = Lt -> String.compare b c = Lt -> String.compare a c = Lt.
Proof.
  induction a as [|x a IH]; intros [|y b] [|z c]; simpl; try congruence.
  rewrite !ascii_compare_N.
  destruct (N.compare_spec (N_of_ascii x) (N_of_ascii y)) as [Exy|Lxy|Gxy];
    destruct (N.compare_spec (N_of_ascii y) (N_of_ascii z)) as [Eyz|Lyz|Gyz];
    try congruence; intros H1 H2.
  - rewrite Exy, Eyz, N.compare_refl. eauto.
  - rewrite Exy. now apply N.compare_lt_iff in Lyz as ->.
  - rewrite <- Eyz. now apply N.compare_lt_iff in Lxy as ->.
  - assert (L : (N_of_ascii x < N_of_ascii z)%N) by lia.
    now apply N.compare_lt_iff in L as ->.
Qed.

Lemma string_leb_trans a b c :
  String.leb a b = true -> String.leb b c = true -> String.leb a c = true.
Proof.
  unfold String.leb.
  destruct (String.compare a b) eqn:Eab; try discriminate;
    destruct (String.compare b c) eqn:Ebc; try discriminate; intros _ _.
  - apply string_compare_Eq in Eab. subst. now rewrite Ebc.
  - apply string_compare_Eq in Eab. subst. now rewrite Ebc.
  - apply string_compare_Eq in Ebc. subst. now rewrite Eab.
  - now rewrite (string_compare_Lt_trans a b c Eab Ebc).
Qed.

(** [sorted] returns its argument rearranged in ascending order. *)
Lemma sorted_ascending l :
  Permutation l (sorted l)
  /\ StronglySorted (fun a b => PyStr.le a b = true) (sorted l).
Proof.
  split; [apply StrSort.Permuted_sort|].
  apply Sorted_StronglySorted.
  - intros a b c. apply string_leb_trans.
  - exact (StrSort.Sorted_sort l).
Qed.

(** The loop of the evaluator is a concatenation over the keys it keeps. *)
Lemma matching_fold (selected : dict (list string)) (keep : string -> bool) keys :
  forall matching,
    fold_left
      (fun matching task_day =>
         if keep task_day
         then matching ++ PyDict.get_default task_day [] selected
         else matching) keys matching
    = matching
      ++ concat (map (fun key => PyDict.get_default key [] selected) (filter keep keys)).
Proof.
  induction keys as [|key keys IH]; intros matching; simpl.
  - now rewrite app_nil_r.
  - rewrite IH. destruct (keep key); simpl; [now rewrite app_assoc | reflexivity].
Qed.

(** C5.  The result list of a rule, on any task buckets, is the
    concatenation of the task lists of the matching keys of the bucket of the
    rule's timeframe, the keys taken in ascending order of strings.  On the
    past the key ["all"] never matches and another key matches iff it is at
    least the boundary; on the future every key matches when the boundary is
    ["all"], and otherwise a key matches iff it is at most the boundary. *)
Theorem rule_result_is_sorted_concatenation
    (today : Z) (data : task_buckets) (rule : variable_config) (boundary : string) :
  variable_date_of today rule = Ok boundary ->
  let timeframe := var_timeframe rule in
  let bucket := PyDict.get_default timeframe [] data in
  let keys := sorted (PyDict.keys bucket) in
  let matches := fun key => _task_day_matches_timeframe key timeframe boundary in
  let result :=
    concat (map (fun key => PyDict.get_default key [] bucket) (filter matches keys)) in
  variable_value today data rule
  = Ok (if String.eqb (var_sensor_type rule) "list" then PyList result
        else PyInt (Z.of_nat (List.length result)))
  /\ Permutation (PyDict.keys bucket) keys
  /\ StronglySorted (fun a b => PyStr.le a b = true) keys
  /\ (timeframe = "past" ->
      forall key, matches key = true <-> key <> "all" /\ PyStr.ge key boundary = true)
  /\ (timeframe = "future" ->
      forall key, matches key = true <-> boundary = "all" \/ PyStr.le key boundary = true).
Proof.
  intros Hdate timeframe bucket keys matches result.
  split.
  { unfold variable_value. rewrite Hdate. cbn [bind].
    unfold matching_task_list. rewrite matching_fold. reflexivity. }
  split; [apply sorted_ascending|]. split; [apply sorted_ascending|].
  unfold matches, _task_day_matches_timeframe. split; intros -> key.
  - cbn [String.eqb Ascii.eqb Bool.eqb _ASANA_TIMEFRAME_COMPLETED andb].
    destruct (String.eqb_spec key _ASANA_TASK_DATE_ALL) as [->|Hne].
    + split; [discriminate | intros [H _]; now destruct H].
    + split; [now split | now intros [_ H]].
  - cbn [String.eqb Ascii.eqb Bool.eqb _ASANA_TIMEFRAME_COMPLETED
         _ASANA_TIMEFRAME_NOT_COMPLETED andb].
    destruct (String.eqb_spec boundary _ASANA_TASK_DATE_ALL) as [->|Hne].
    + split; [now left | reflexivity].
    + split; [now right | intros [H|H]; [now destruct Hne | exact H]].
Qed.

Lemma rule_result_is_sorted_concatenation_witness :
  let data : task_buckets :=
    [("past", [("2024-01-05", ["2024-01-05 - e"]); ("all", ["c"]);
               ("2024-01-01", ["2024-01-01 - a"]); ("2024-01-03", ["2024-01-03 - g"])]);
     ("future", [])] in
  let rule := mkVariable "list_past_7day" "list" "past" (DateDays 7) in
  variable_date_of 738893 rule = Ok "2024-01-01"
  /\ variable_value 738893 data rule
     = Ok (PyList ["2024-01-01 - a"; "2024-01-03 - g"; "2024-01-05 - e"]).
Proof.
  intros data rule.
  split; [reflexivity|].
  destruct (rule_result_is_sorted_concatenation 738893 data rule "2024-01-01" eq_refl)
    as [H _].
  exact H.
Defined.

(** ** Valid names *)

Lemma prefix_app s : forall t, String.prefix s t = true <-> exists b, t = (s ++ b)%string.
Proof.
  induction s as [|c s IH]; intros t; simpl.
  - split; [intros _; now exists t | now destruct t].
  - destruct t as [|d t]; simpl.
    + split; [discriminate | intros [b Hb]; discriminate].
    + destruct (Ascii.ascii_dec c d) as [->|Hne].
      * rewrite IH. split; intros [b Hb]; exists b; congruence.
      * split; [discriminate | intros [b Hb]; congruence].
Qed.

(** [sub in s] holds exactly of the strings with [sub] inside. *)
Lemma contains_app sub s :
  PyStr.contains sub s = true <-> exists a b, s = (a ++ sub ++ b)%string.
Proof.
  induction s as [|c s IH]; cbn [PyStr.contains].
  - rewrite orb_false_r, prefix_app. split.
    + intros [b Hb]. now exists EmptyString, b.
    + intros [[|x a] [b Hb]]; [now exists b | discriminate].
  - rewrite orb_true_iff, prefix_app, IH. split.
    + intros [[b Hb]|[a [b Hb]]].
      * now exists EmptyString, b.
      * exists (String c a), b. simpl. now rewrite Hb.
    + intros [[|x a] [b Hb]].
      * left. now exists b.
      * right. exists a, b. simpl in Hb. congruence.
Qed.












Example all_takes_precedence :
  _process_monitored_variables None ["counter_past_allday123"; "list_future_30day"]
  = Ok (mkParser (Some "counter_past_allday123")
          [("counter_past_allday123",
            mkVariable "counter_past_allday123" "counter" "past" DateAll);
           ("list_future_30day",
            mkVariable "list_future_30day" "list" "future" (DateDays 30))] []).
Proof. reflexivity. Qed.

(** * Further properties of the code *)

(** ** The fetch, when it succeeds and when it cannot end *)

Lemma fetch_pages_success
    (World : Type) (http_get : string -> string -> World -> response_data * World)
    fuel authorization :
  forall api_url tasks_data w all_tasks log w',
    fetch_pages World http_get fuel authorization api_url tasks_data w
    = Some (Some all_tasks, log, w') ->
    let pages := pages_received World http_get fuel authorization api_url w in
    existsb response_unexpected pages = false
    /\ all_tasks = tasks_data ++ flat_map response_tasks pages
    /\ log = []
    /\ (List.length pages <= fuel)%nat.
Proof.
  induction fuel as [|fuel IH]; intros api_url tasks_data w all_tasks log w'; simpl.
  - destruct (url_truthy api_url); [discriminate|].
    intros [= <- <- _]. rewrite app_nil_r. repeat split; auto.
  - destruct (url_truthy api_url).
    + destruct (http_get (url_text api_url) authorization w) as [answer w1].
      destruct (response_unexpected answer) eqn:E; [discriminate|].
      intros H. apply IH in H. destruct H as [H1 [H2 [H3 H4]]]. simpl.
      rewrite E. simpl. split; [exact H1|].
      split; [now rewrite H2, <- app_assoc|]. split; [exact H3 | lia].
    + intros [= <- <- _]. rewrite app_nil_r. repeat split; auto. simpl. lia.
Qed.

(** When [get_api_data] returns a task list, every page received was as
    expected, the list is the tasks of the pages in the order of the requests,
    and nothing was logged. *)
Theorem fetch_returns_pages_in_order
    (World : Type) (http_get : string -> string -> World -> response_data * World)
    (fuel : nat) (today : Z) (api : AsanaTaskApi) (w w' : World)
    (tasks_data : list task) (log : list string) :
  get_api_data World http_get fuel today api w = Some (Ok (Some tasks_data, log, w')) ->
  exists api_url,
    _get_api_endpoint today api = Ok api_url
    /\ let pages := pages_received World http_get fuel ("Bearer " ++ _token api)%string
                                    (Some api_url) w in
       existsb response_unexpected pages = false
       /\ tasks_data = flat_map response_tasks pages
       /\ pages <> []
       /\ log = [].
Proof.
  unfold get_api_data.
  destruct (_get_api_endpoint today api) as [api_url|e] eqn:Hurl; [|discriminate].
  destruct (fetch_pages World http_get fuel ("Bearer " ++ _token api) (Some api_url) [] w)
    as [[[out lg] w1]|] eqn:Hfetch; [|discriminate].
  intros [= -> -> ->]. exists api_url. split; [reflexivity|].
  destruct (fetch_pages_success World http_get fuel _ _ _ _ _ _ _ Hfetch)
    as [H1 [H2 [H3 _]]].
  split; [exact H1|]. split; [exact H2|]. split; [|exact H3].
  (* the endpoint is never the empty string, so a request was made *)
  assert (Hshape : exists c u, api_url = String c u).
  { unfold _get_api_endpoint in Hurl.
    destruct (_get_since_date today api); simpl in Hurl; [|discriminate].
    injection Hurl as <-. eauto. }
  destruct Hshape as [c [u ->]].
  destruct fuel as [|fuel]; simpl in Hfetch |- *.
  - discriminate.
  - destruct (http_get _ _ w). discriminate.
Qed.

Lemma fetch_returns_pages_in_order_witness :
  let pages :=
    [Some (mkResponse (Some [mkTask "pay rent" false (Some "2024-02-01") None])
                      (Some (mkNextPage (Some "https://app.asana.com/api/1.0/tasks?offset=x"))));
     Some (mkResponse (Some [mkTask "call home" true None (Some "2024-01-07T08:00:00.000Z");
                             mkTask "water the plants" false None None])
                      None)] in
  exists api_url,
    _get_api_endpoint 738893 (mkApi "token" "workspace" 7) = Ok api_url
    /\ flat_map response_tasks
         (pages_received _ scripted_get 5 "Bearer token" (Some api_url) pages)
       = [mkTask "pay rent" false (Some "2024-02-01") None;
          mkTask "call home" true None (Some "2024-01-07T08:00:00.000Z");
          mkTask "water the plants" false None None].
Proof.
  intros pages.
  destruct (fetch_returns_pages_in_order _ scripted_get 5 738893
              (mkApi "token" "workspace" 7) pages []
              [mkTask "pay rent" false (Some "2024-02-01") None;
               mkTask "call home" true None (Some "2024-01-07T08:00:00.000Z");
               mkTask "water the plants" false None None] [] eq_refl)
    as [api_url [Hurl [_ [Htasks _]]]].
  exists api_url. split; [exact Hurl | symmetry; exact Htasks].
Defined.

(** The loop has no bound on the number of pages: against a service that
    always answers with a well-formed page naming a next page, no number of
    requests makes [get_api_data] return. *)
Theorem fetch_never_returns_on_endless_pages
    (World : Type) (http_get : string -> string -> World -> response_data * World)
    (endless : World -> Prop) :
  (forall url authorization w,
      endless w ->
      response_unexpected (fst (http_get url authorization w)) = false
      /\ url_truthy (next_url (response_next (fst (http_get url authorization w)))) = true
      /\ endless (snd (http_get url authorization w))) ->
  forall fuel today api w api_url,
    endless w ->
    _get_api_endpoint today api = Ok api_url ->
    get_api_data World http_get fuel today api w = None.
Proof.
  intros Hstep fuel today api w api_url Hw Hurl.
  unfold get_api_data. rewrite Hurl.
  assert (Htruthy : url_truthy (Some api_url) = true).
  { unfold _get_api_endpoint in Hurl.
    destruct (_get_since_date today api); simpl in Hurl; [|discriminate].
    injection Hurl as <-. reflexivity. }
  assert (Hloop : forall fuel url tasks_data w0,
             endless w0 -> url_truthy url = true ->
             fetch_pages World http_get fuel ("Bearer " ++ _token api) url tasks_data w0
             = None).
  { clear fuel w Hw.
    induction fuel as [|fuel IH]; intros url tasks_data w0 Hw0 Ht;
      cbn [fetch_pages]; rewrite Ht; [reflexivity|].
    destruct (Hstep (url_text url) ("Bearer " ++ _token api)%string w0 Hw0)
      as [H1 [H2 H3]].
    destruct (http_get (url_text url) ("Bearer " ++ _token api)%string w0)
      as [answer w1].
    cbn [fst snd] in H1, H2, H3. rewrite H1. now apply IH. }
  now rewrite (Hloop fuel (Some api_url) [] w Hw Htruthy).
Qed.

Lemma fetch_never_returns_on_endless_pages_witness :
  get_api_data unit endless_get 1000 738893 (mkApi "token" "workspace" 0) tt = None.
Proof.
  apply (fetch_never_returns_on_endless_pages unit endless_get (fun _ => True))
    with (api_url := "https://app.asana.com/api/1.0/tasks?workspace=workspace&assignee=me&opt_fields=id,name,created_at,due_on,completed,completed_at&completed_since=2024-01-08&limit=100").
  - intros url authorization w _. repeat split.
  - exact I.
  - reflexivity.
Defined.

(** ** The parser and the constructor *)

Lemma lower_char_idempotent c : PyStr.lower_char (PyStr.lower_char c) = PyStr.lower_char c.
Proof.
  destruct c as [[] [] [] [] [] [] [] []]; reflexivity.
Qed.

Lemma lower_idempotent s : PyStr.lower (PyStr.lower s) = PyStr.lower s.
Proof.
  induction s as [|c s IH]; simpl; [reflexivity|].
  now rewrite lower_char_idempotent, IH.
Qed.




Lemma items_set_In {V : Type} (k k' : string) (v x : V) (d : dict V) :
  In (k', x) (PyDict.set k v d) -> (k', x) = (k, v) \/ In (k', x) d.
Proof.
  induction d as [|[k0 v0] d IH]; simpl.
  - intros [H|[]]; auto.
  - destruct (String.eqb_spec k0 k) as [->|Hne]; simpl; intros [H|H]; auto.
    destruct (IH H); auto.
Qed.

Lemma store_rules_items (P : string * variable_config -> Prop) rules :
  forall variables,
    Forall (fun rule => P (var_name rule, rule)) rules ->
    Forall P variables ->
    Forall P (store_rules rules variables).
Proof.
  induction rules as [|rule rules IH]; intros variables Hr Hv; simpl; auto.
  inversion Hr; subst. apply IH; auto.
  apply Forall_forall. intros [k x] Hx. apply items_set_In in Hx.
  destruct Hx as [[= -> ->]|Hx]; auto. rewrite Forall_forall in Hv. auto.
Qed.

Lemma store_rules_first_key rules :
  forall variables,
    hd_error (PyDict.keys (store_rules rules variables))
    = hd_error (PyDict.keys variables ++ map var_name rules).
Proof.
  induction rules as [|rule rules IH]; intros variables; simpl.
  - now rewrite app_nil_r.
  - rewrite IH.
    destruct (PyDict.get (var_name rule) variables) as [old|] eqn:E.
    + rewrite keys_set_present by congruence.
      assert (Hin : In (var_name rule) (PyDict.keys variables))
        by (apply get_In; congruence).
      destruct (PyDict.keys variables); [destruct Hin | reflexivity].
    + rewrite keys_set_absent by exact E. now rewrite <- app_assoc.
Qed.

(** What the constructor guarantees of the sensor it returns: the rule names
    are distinct; every rule is stored under its own name, which is in lower
    case, with a known kind, a known timeframe and a day count that is not
    negative; the state attribute name is the first key of the rule set, and
    [None] exactly when there is no rule; the attributes have the keys of the
    rule set; the fetch horizon is not negative. *)
Theorem constructed_sensor_invariant
    (cfg : config) (s : AsanaTaskSensor) (log : list string) :
  __init__ cfg = Ok (s, log) ->
  NoDup (PyDict.keys (_monitored_variables s))
  /\ (forall key rule,
        In (key, rule) (PyDict.items (_monitored_variables s)) ->
        var_name rule = key /\ PyStr.lower key = key /\ well_formed_rule rule)
  /\ _state_attribute_name s = hd_error (PyDict.keys (_monitored_variables s))
  /\ PyDict.keys (_attributes s) = PyDict.keys (_monitored_variables s)
  /\ 0 <= _since_days_ago (_api s).
Proof.
  unfold __init__. intros Hinit.
  destruct (_process_monitored_variables None (conf_monitored_variables cfg))
    as [st|] eqn:Hparse; simpl in Hinit; [|discriminate].
  injection Hinit as <- _.
  cbn [_monitored_variables _api _since_days_ago _state_attribute_name _attributes].
  pose proof (parsed_rules_well_formed _ _ _ Hparse) as Hwf.
  unfold _process_monitored_variables in Hparse.
  pose proof (process_variables_Ok_three_parts _ _ _ Hparse) as Hall.
  destruct (process_variables_three_parts _ (mkParser None [] []) Hall)
    as [st' [E [Hsan Hvars]]].
  rewrite Hparse in E. injection E as <-.
  cbn [ps_state_attribute_name ps_variables first_chosen] in Hsan, Hvars.
  split; [rewrite Hvars; apply store_rules_keys_NoDup; constructor|].
  split.
  { intros key rule Hin. rewrite Hvars in Hin. unfold PyDict.items in Hin.
    assert (Hall' : Forall (fun kr : string * variable_config =>
                             var_name (snd kr) = fst kr
                             /\ PyStr.lower (fst kr) = fst kr
                             /\ well_formed_rule (snd kr))
                          (store_rules (accepted_rules (conf_monitored_variables cfg)) [])).
    { apply store_rules_items; [|constructor].
      generalize (conf_monitored_variables cfg). intros names.
      induction names as [|raw names IH]; simpl; [constructor|].
      destruct (accepted_rule raw) as [r|] eqn:Er; [|exact IH].
      constructor; [|exact IH]. simpl.
      destruct (accepted_rule_well_formed raw r Er) as [Hw Hn].
      split; [reflexivity|]. split; [|exact Hw].
      rewrite Hn. apply lower_idempotent. }
    rewrite Forall_forall in Hall'. exact (Hall' (key, rule) Hin). }
  split.
  { rewrite Hsan, Hvars. symmetry. apply (store_rules_first_key _ []). }
  split.
  { unfold PyDict.keys. rewrite map_map. simpl. apply map_id. }
  destruct (max_since_fold (PyDict.values (ps_variables st)) 0 Hwf) as [H0 _].
  exact H0.
Qed.

Lemma constructed_sensor_invariant_witness :
  let cfg := mkConfig "token" "workspace"
               ["List_Future_All"; "bogus_past_1day"; "counter_past_7day"; "list_future_all"]
               "asana" in
  exists s log,
    __init__ cfg = Ok (s, log)
    /\ PyDict.keys (_monitored_variables s) = ["list_future_all"; "counter_past_7day"]
    /\ NoDup (PyDict.keys (_monitored_variables s))
    /\ _state_attribute_name s = hd_error (PyDict.keys (_monitored_variables s))
    /\ 0 <= _since_days_ago (_api s).
Proof.
  intros cfg.
  destruct (__init__ cfg) as [[s log]|] eqn:E; [|discriminate E].
  destruct (constructed_sensor_invariant cfg s log E) as [H1 [_ [H3 [_ H5]]]].
  exists s, log. split; [reflexivity|]. split; [|auto].
  vm_compute in E. injection E as <- _. reflexivity.
Defined.

(** ** A cycle whose fetch succeeds *)

Lemma get_Some_In {V : Type} (k : string) (v : V) (d : dict V) :
  PyDict.get k d = Some v -> In (k, v) d.
Proof.
  induction d as [|[k' v'] d IH]; simpl; [discriminate|].
  destruct (String.eqb_spec k' k) as [->|Hne]; [intros [= ->]; now left | auto].
Qed.

Lemma set_same {V : Type} (k : string) (v : V) (d : dict V) :
  PyDict.get k d = Some v -> PyDict.set k v d = d.
Proof.
  induction d as [|[k' v'] d IH]; simpl; [discriminate|].
  destruct (String.eqb_spec k' k) as [->|Hne].
  - now intros [= ->].
  - intros H. now rewrite IH.
Qed.

Lemma store_tasks_returns tasks_data :
  exists data, _store_task_data tasks_data = Ok data.
Proof.
  assert (H0 : holds empty_buckets []) by (exists [], []; repeat split).
  destruct (store_tasks_holds tasks_data empty_buckets [] H0) as [data [E _]].
  now exists data.
Qed.

(** The loop over the rules, when the boundary of every rule is a date: the
    keys outside the rules keep their value, every rule name gets the value
    of its rule, and no key is added when the names are keys already. *)
Lemma update_attributes_returns today data variables :
  forall attributes,
    (forall key rule, In (key, rule) variables ->
                      exists v, variable_value today data rule = Ok v) ->
    exists attributes',
      update_attributes today data variables attributes = Ok attributes'
      /\ (forall key, ~ In key (map fst variables) ->
                      PyDict.get key attributes' = PyDict.get key attributes)
      /\ (NoDup (map fst variables) ->
          forall key rule, In (key, rule) variables ->
            exists v, variable_value today data rule = Ok v
                      /\ PyDict.get key attributes' = Some v)
      /\ ((forall key, In key (map fst variables) -> In key (PyDict.keys attributes)) ->
          PyDict.keys attributes' = PyDict.keys attributes).
Proof.
  induction variables as [|[key0 rule0] more IH]; intros attributes Hok; simpl.
  - exists attributes. repeat split; auto. intros _ key rule [].
  - destruct (Hok key0 rule0 (or_introl eq_refl)) as [v0 E0]. rewrite E0. simpl.
    destruct (IH (PyDict.set key0 v0 attributes)) as [attributes' [E [Hout [Hin Hkeys]]]].
    { intros key rule H. apply (Hok key rule). now right. }
    exists attributes'. split; [exact E|]. split; [|split].
    + intros key Hnot. rewrite Hout by tauto. apply get_set_other. tauto.
    + intros Hnd key rule [[= <- <-]|H].
      * exists v0. split; [exact E0|]. inversion Hnd; subst.
        rewrite Hout by assumption. apply get_set_same.
      * inversion Hnd; subst. now apply Hin.
    + intros Hsub. rewrite Hkeys.
      * apply keys_set_present. apply get_In. apply Hsub. now left.
      * intros key H. rewrite keys_set_present.
        -- apply Hsub. now right.
        -- apply get_In. apply Hsub. now left.
Qed.

(** The boundary of a rule can only fail with [OverflowError]. *)
Lemma variable_date_of_raises today rule e :
  variable_date_of today rule = Raise e -> e = OverflowError.
Proof.
  unfold variable_date_of, Datetime.timedelta, Datetime.sub, Datetime.add.
  destruct (var_task_date rule) as [|n]; [discriminate|].
  destruct ((- Datetime.max_delta_days <=? n) && (n <=? Datetime.max_delta_days));
    simpl; [|now intros [= <-]].
  destruct (String.eqb (var_timeframe rule) _ASANA_TIMEFRAME_COMPLETED);
    match goal with
    | |- context [if ?c then Ok ?r else _] => destruct c
    end; simpl; (discriminate || now intros [= <-]).
Qed.

Lemma variable_value_raises today data rule e :
  variable_value today data rule = Raise e ->
  e = OverflowError /\ variable_date_of today rule = Raise OverflowError.
Proof.
  unfold variable_value.
  destruct (variable_date_of today rule) as [boundary|e'] eqn:E; simpl; [discriminate|].
  intros [= <-]. pose proof (variable_date_of_raises today rule e' E). now subst.
Qed.

Lemma update_attributes_raises today data variables :
  forall attributes key rule,
    In (key, rule) variables ->
    variable_date_of today rule = Raise OverflowError ->
    update_attributes today data variables attributes = Raise OverflowError.
Proof.
  induction variables as [|[key0 rule0] more IH]; intros attributes key rule Hin Hbad;
    simpl; [destruct Hin|].
  destruct (variable_value today data rule0) as [v0|e0] eqn:E0; simpl.
  - destruct Hin as [[= -> ->]|Hin].
    + unfold variable_value in E0. rewrite Hbad in E0. discriminate.
    + eapply IH; eauto.
  - apply variable_value_raises in E0. now destruct E0 as [-> _].
Qed.

(** On a sensor with distinct rule names, whose attributes have the keys of
    the rule set and whose state attribute name is its first key, as the
    constructor builds it, a cycle that fetched [tasks_data] returns when the
    boundary of every rule is a date.  Then the buckets are those of
    [tasks_data], the attributes keep their keys, every rule name is mapped to
    the value of its rule on the new buckets, and the state is the attribute
    under the state attribute name, or ["OK"] without rules: no subscript
    fails. *)
Theorem cycle_refreshes_every_attribute
    (today : Z) (s : AsanaTaskSensor) (tasks_data : list task) :
  NoDup (PyDict.keys (_monitored_variables s)) ->
  PyDict.keys (_attributes s) = PyDict.keys (_monitored_variables s) ->
  _state_attribute_name s = hd_error (PyDict.keys (_monitored_variables s)) ->
  (forall rule, In rule (PyDict.values (_monitored_variables s)) ->
                exists boundary, variable_date_of today rule = Ok boundary) ->
  exists data s',
    _store_task_data tasks_data = Ok data
    /\ refresh today s tasks_data = Ok s'
    /\ _task_data s' = data
    /\ _monitored_variables s' = _monitored_variables s
    /\ _state_attribute_name s' = _state_attribute_name s
    /\ PyDict.keys (device_state_attributes s') = PyDict.keys (_monitored_variables s)
    /\ (forall key rule,
          PyDict.get key (_monitored_variables s) = Some rule ->
          exists v, variable_value today data rule = Ok v
                    /\ PyDict.get key (device_state_attributes s') = Some v)
    /\ match _state_attribute_name s with
       | Some (String c rest) =>
           PyDict.get (String c rest) (device_state_attributes s') = Some (state s')
       | _ => state s' = PyStr "OK"
       end.
Proof.
  intros Hnd Hkeys Hsan Hdates.
  destruct (store_tasks_returns tasks_data) as [data Edata].
  destruct (update_attributes_returns today data (PyDict.items (_monitored_variables s))
              (_attributes s)) as [attributes' [E [_ [Hin Hsame]]]].
  { intros key rule H. unfold variable_value.
    destruct (Hdates rule) as [boundary Hb].
    - apply in_map_iff. now exists (key, rule).
    - rewrite Hb. simpl. eauto. }
  specialize (Hin Hnd).
  assert (Hk : PyDict.keys attributes' = PyDict.keys (_monitored_variables s)).
  { rewrite Hsame; [exact Hkeys|]. intros key H. now rewrite Hkeys. }
  assert (Hattr : _update_sensor_attributes today (set_task_data s data)
                  = Ok (set_attributes (set_task_data s data) attributes')).
  { unfold _update_sensor_attributes. cbn [set_task_data _task_data _monitored_variables
                                           _attributes]. now rewrite E. }
  unfold refresh. rewrite Edata. cbn [bind]. rewrite Hattr. cbn [bind].
  unfold _update_sensor_state.
  cbn [set_attributes set_task_data _state_attribute_name _attributes _monitored_variables
       _api _name _task_data _state].
  destruct (_state_attribute_name s) as [[|c rest]|] eqn:Echosen.
  - exists data. eexists. split; [reflexivity|]. split; [reflexivity|].
    cbn. repeat split; auto.
    intros key rule Hget. apply Hin. now apply get_Some_In.
  - assert (Hpresent : In (String c rest) (PyDict.keys attributes')).
    { rewrite Hk. destruct (PyDict.keys (_monitored_variables s)); [discriminate|].
      injection Hsan as ->. now left. }
    apply get_In in Hpresent. cbn [PyStr.truthy].
    destruct (PyDict.get (String c rest) attributes') as [v|] eqn:Ev; [|congruence].
    exists data. eexists. split; [reflexivity|]. split; [reflexivity|].
    cbn. repeat split; auto.
    intros key rule Hget. apply Hin. now apply get_Some_In.
  - exists data. eexists. split; [reflexivity|]. split; [reflexivity|].
    cbn. repeat split; auto.
    intros key rule Hget. apply Hin. now apply get_Some_In.
Qed.

Lemma cycle_refreshes_every_attribute_witness :
  let tasks_data :=
    [mkTask "pay rent" false (Some "2024-02-01") None;
     mkTask "call home" true None (Some "2024-01-07T08:00:00.000Z");
     mkTask "water the plants" false None None] in
  exists data s',
    _store_task_data tasks_data = Ok data
    /\ refresh 738893 stale_sensor tasks_data = Ok s'
    /\ PyDict.get "counter_future_all" (device_state_attributes s') = Some (state s')
    /\ state s' = PyInt 2.
Proof.
  intros tasks_data.
  destruct (cycle_refreshes_every_attribute 738893 stale_sensor tasks_data)
    as [data [s' [E1 [E2 [_ [_ [_ [_ [_ Hstate]]]]]]]]].
  - repeat constructor. simpl. tauto.
  - reflexivity.
  - reflexivity.
  - intros rule [<-|[]]. eexists. reflexivity.
  - exists data, s'. split; [exact E1|]. split; [exact E2|]. split; [exact Hstate|].
    vm_compute in E2. injection E2 as <-. reflexivity.
Defined.

(** ** Day counts that leave the calendar *)

Lemma since_date_raises today api :
  today - _since_days_ago api < 1 ->
  _get_since_date today api = Raise OverflowError.
Proof.
  intros Hlow. unfold _get_since_date, Datetime.timedelta, Datetime.sub, Datetime.add.
  destruct ((- Datetime.max_delta_days <=? _since_days_ago api)
            && (_since_days_ago api <=? Datetime.max_delta_days)); cbn [bind];
    [|reflexivity].
  replace (Datetime.min_ordinal <=? today + - _since_days_ago api) with false;
    [reflexivity|].
  symmetry. apply Z.leb_gt. unfold Datetime.min_ordinal. lia.
Qed.

(** A rule on the past whose day count reaches back to before the first day
    of the calendar stops the sensor for good: the fetch horizon is at least
    that count, the date of the endpoint cannot be computed, and every update
    raises [OverflowError] before any request is made. *)
Theorem update_raises_when_horizon_leaves_calendar
    (World : Type) (http_get : string -> string -> World -> response_data * World)
    (cfg : config) (s : AsanaTaskSensor) (log : list string)
    (n today : Z) (fuel : nat) (w : World) :
  __init__ cfg = Ok (s, log) ->
  In n (bounded_past_days (_monitored_variables s)) ->
  today <= n ->
  n <= _since_days_ago (_api s)
  /\ update World http_get fuel today s w = Some (Raise OverflowError, [], w).
Proof.
  unfold __init__. intros Hinit Hn Htoday.
  destruct (_process_monitored_variables None (conf_monitored_variables cfg))
    as [st|] eqn:Hparse; simpl in Hinit; [|discriminate].
  injection Hinit as <- _.
  cbn [_monitored_variables _api _since_days_ago] in *.
  pose proof (parsed_rules_well_formed _ _ _ Hparse) as Hwf.
  destruct (max_since_fold (PyDict.values (ps_variables st)) 0 Hwf) as [_ [Hmax _]].
  specialize (Hmax n Hn). unfold _get_max_since_days_ago.
  split; [lia|].
  unfold update, get_api_data, _get_api_endpoint.
  rewrite since_date_raises; [reflexivity|].
  cbn [_api _since_days_ago]. lia.
Qed.

Lemma update_raises_when_horizon_leaves_calendar_witness :
  let cfg := mkConfig "token" "workspace" ["counter_past_800000day"] "asana" in
  exists s log,
    __init__ cfg = Ok (s, log)
    /\ update _ scripted_get 3 738893 s [Some (mkResponse (Some []) None)]
       = Some (Raise OverflowError, [], [Some (mkResponse (Some []) None)]).
Proof.
  intros cfg.
  destruct (__init__ cfg) as [[s log]|] eqn:E; [|discriminate E].
  exists s, log. split; [reflexivity|].
  apply (update_raises_when_horizon_leaves_calendar _ scripted_get cfg s log 800000);
    [exact E | | lia].
  vm_compute in E. injection E as <- _. simpl. auto.
Defined.

(** A rule whose boundary is not a date of the calendar makes a cycle that
    fetched its tasks raise [OverflowError]: with a day count beyond what a
    [timedelta] holds, or a date before 0001-01-01 or after 9999-12-31. *)
Theorem cycle_raises_on_unrepresentable_boundary
    (today : Z) (s : AsanaTaskSensor) (tasks_data : list task)
    (rule : variable_config) (n : Z) :
  In rule (PyDict.values (_monitored_variables s)) ->
  var_task_date rule = DateDays n ->
  (let shifted := if String.eqb (var_timeframe rule) "past" then today - n
                  else today + n in
   ~ (- 999999999 <= n <= 999999999 /\ 1 <= shifted <= 3652059)) ->
  variable_date_of today rule = Raise OverflowError
  /\ refresh today s tasks_data = Raise OverflowError.
Proof.
  intros Hin Hdays Hout.
  assert (Hbad : variable_date_of today rule = Raise OverflowError).
  { unfold variable_date_of, Datetime.timedelta, Datetime.sub, Datetime.add.
    rewrite Hdays.
    unfold Datetime.max_delta_days, Datetime.min_ordinal, Datetime.max_ordinal,
      _ASANA_TIMEFRAME_COMPLETED in *.
    destruct ((- (999999999) <=? n) && (n <=? 999999999)) eqn:Erange; cbn [bind];
      [|reflexivity].
    apply andb_prop in Erange. destruct Erange as [R1 R2].
    apply Z.leb_le in R1, R2.
    destruct (String.eqb (var_timeframe rule) "past"); cbv zeta in Hout.
    - destruct ((1 <=? today + - n) && (today + - n <=? 3652059)) eqn:Edate;
        cbn [bind]; [|reflexivity].
      apply andb_prop in Edate. destruct Edate as [D1 D2].
      apply Z.leb_le in D1, D2. exfalso. apply Hout. lia.
    - destruct ((1 <=? today + n) && (today + n <=? 3652059)) eqn:Edate;
        cbn [bind]; [|reflexivity].
      apply andb_prop in Edate. destruct Edate as [D1 D2].
      apply Z.leb_le in D1, D2. exfalso. apply Hout. lia. }
  split; [exact Hbad|].
  destruct (store_tasks_returns tasks_data) as [data Edata].
  unfold refresh. rewrite Edata. cbn [bind].
  unfold _update_sensor_attributes.
  cbn [set_task_data _task_data _monitored_variables _attributes].
  apply in_map_iff in Hin. destruct Hin as [[key rule'] [Hsnd Hin]].
  simpl in Hsnd. subst rule'. unfold PyDict.items.
  rewrite (update_attributes_raises today data _ (_attributes s) key rule Hin Hbad).
  reflexivity.
Qed.

Lemma cycle_raises_on_unrepresentable_boundary_witness :
  let rule := mkVariable "list_future_3000000day" "list" "future" (DateDays 3000000) in
  let s := mkSensor (Some "list_future_3000000day") [("list_future_3000000day", rule)]
                    (mkApi "token" "workspace" 0) [] "asana"
                    [("list_future_3000000day", PyNone)] PyNone in
  variable_date_of 738893 rule = Raise OverflowError
  /\ refresh 738893 s [mkTask "pay rent" false (Some "2024-02-01") None]
     = Raise OverflowError.
Proof.
  intros rule s.
  apply (cycle_raises_on_unrepresentable_boundary 738893 s _ rule 3000000).
  - simpl. auto.
  - reflexivity.
  - simpl. lia.
Defined.

(** ** A second cycle on the same tasks *)

Lemma update_attributes_again today data variables :
  forall attributes,
    (forall key rule, In (key, rule) variables ->
       exists v, variable_value today data rule = Ok v
                 /\ PyDict.get key attributes = Some v) ->
    update_attributes today data variables attributes = Ok attributes.
Proof.
  induction variables as [|[key0 rule0] more IH]; intros attributes H; simpl;
    [reflexivity|].
  destruct (H key0 rule0 (or_introl eq_refl)) as [v0 [E0 G0]].
  rewrite E0. simpl. rewrite (set_same key0 v0 attributes G0).
  apply IH. intros key rule Hin. apply H. now right.
Qed.

Lemma update_attributes_Ok today data variables :
  forall attributes attributes',
    update_attributes today data variables attributes = Ok attributes' ->
    forall key rule, In (key, rule) variables ->
                     exists v, variable_value today data rule = Ok v.
Proof.
  induction variables as [|[key0 rule0] more IH]; intros attributes attributes' E key rule;
    simpl in *; [tauto|].
  destruct (variable_value today data rule0) as [v0|] eqn:E0; simpl in E; [|discriminate].
  intros [[= <- <-]|Hin]; eauto.
Qed.

Ltac sensor_fields :=
  cbn [set_state set_attributes set_task_data _monitored_variables _attributes
       _task_data _state_attribute_name _api _name _state].

(** The buckets and the attributes are rebuilt from the fetched tasks alone:
    on a sensor with distinct rule names, a cycle that returned, run again
    with the same tasks on the same day, returns the sensor it was given. *)
Theorem second_cycle_changes_nothing
    (today : Z) (s s1 : AsanaTaskSensor) (tasks_data : list task) :
  NoDup (PyDict.keys (_monitored_variables s)) ->
  refresh today s tasks_data = Ok s1 ->
  refresh today s1 tasks_data = Ok s1.
Proof.
  intros Hnd. unfold refresh.
  destruct (_store_task_data tasks_data) as [data|] eqn:Edata; cbn [bind]; [|discriminate].
  unfold _update_sensor_attributes.
  cbn [set_task_data _task_data _monitored_variables _attributes].
  destruct (update_attributes today data (PyDict.items (_monitored_variables s))
              (_attributes s)) as [attributes1|] eqn:E1; cbn [bind]; [|discriminate].
  pose proof (update_attributes_Ok _ _ _ _ _ E1) as Hok.
  destruct (update_attributes_returns today data _ (_attributes s) Hok)
    as [attributes' [E [_ [Hin _]]]].
  rewrite E1 in E. injection E as <-. specialize (Hin Hnd).
  unfold _update_sensor_state.
  sensor_fields.
  pose proof (update_attributes_again today data
                (PyDict.items (_monitored_variables s)) attributes1 Hin) as Hagain.
  destruct (match _state_attribute_name s with
            | Some chosen => PyStr.truthy chosen
            | None => false
            end) eqn:Et.
  - destruct (PyDict.get
                match _state_attribute_name s with
                | Some c => c
                | None => EmptyString
                end attributes1) as [v|] eqn:Ev; [|discriminate].
    intros [= <-]. sensor_fields.
    rewrite Hagain. cbn [bind].
    sensor_fields.
    rewrite Et, Ev. reflexivity.
  - intros [= <-]. sensor_fields.
    rewrite Hagain. cbn [bind].
    sensor_fields.
    rewrite Et. reflexivity.
Qed.

Lemma second_cycle_changes_nothing_witness :
  let tasks_data :=
    [mkTask "pay rent" false (Some "2024-02-01") None;
     mkTask "water the plants" false None None] in
  exists s1,
    refresh 738893 stale_sensor tasks_data = Ok s1
    /\ refresh 738893 s1 tasks_data = Ok s1
    /\ state s1 = PyInt 2.
Proof.
  intros tasks_data.
  destruct (refresh 738893 stale_sensor tasks_data) as [s1|] eqn:E; [|discriminate E].
  exists s1. split; [reflexivity|]. split.
  - apply (second_cycle_changes_nothing 738893 stale_sensor s1 tasks_data);
      [repeat constructor; simpl; tauto | exact E].
  - vm_compute in E. injection E as <-. reflexivity.
Defined.

(** ** Counting the open tasks *)

Lemma size_set_present (k : string) (v old : list string) (d : dict (list string)) :
  PyDict.get k d = Some old ->
  (bucket_size (PyDict.set k v d) + List.length old
   = bucket_size d + List.length v)%nat.
Proof.
  unfold bucket_size.
  induction d as [|[k' v'] d IH]; simpl; [discriminate|].
  destruct (String.eqb_spec k' k) as [->|Hne]; simpl.
  - intros [= ->]. rewrite !length_app. lia.
  - intros H. specialize (IH H). rewrite !length_app. lia.
Qed.

Lemma size_set_absent (k : string) (v : list string) (d : dict (list string)) :
  PyDict.get k d = None ->
  bucket_size (PyDict.set k v d) = (bucket_size d + List.length v)%nat.
Proof.
  unfold bucket_size.
  induction d as [|[k' v'] d IH]; simpl.
  - intros _. rewrite app_nil_r. reflexivity.
  - destruct (String.eqb_spec k' k) as [->|Hne]; simpl; [discriminate|].
    intros H. specialize (IH H). rewrite !length_app. lia.
Qed.

Lemma keys_set_NoDup {V : Type} (k : string) (v : V) (d : dict V) :
  NoDup (PyDict.keys d) -> NoDup (PyDict.keys (PyDict.set k v d)).
Proof.
  intros Hnd. destruct (PyDict.get k d) as [old|] eqn:E.
  - rewrite keys_set_present; [exact Hnd | congruence].
  - rewrite keys_set_absent by exact E.
    apply NoDup_app; [exact Hnd | repeat constructor; intros [] |].
    intros k' Hk [<-|[]]. apply get_In in Hk. congruence.
Qed.

(** The two statements on a bucket keep its keys distinct and add one
    string to it. *)
Lemma bucket_append_size (bucket : dict (list string)) date shown :
  NoDup (PyDict.keys bucket) ->
  exists bucket',
    (let group1 :=
       if negb (PyDict.mem date bucket) then PyDict.set date [] bucket else bucket in
     match PyDict.get date group1 with
     | None => None
     | Some names => Some (PyDict.set date (names ++ [shown]) group1)
     end) = Some bucket'
    /\ NoDup (PyDict.keys bucket')
    /\ bucket_size bucket' = S (bucket_size bucket).
Proof.
  intros Hnd. unfold PyDict.mem.
  destruct (PyDict.get date bucket) as [names|] eqn:E; cbn [negb].
  - rewrite E. eexists. split; [reflexivity|]. split; [now apply keys_set_NoDup|].
    pose proof (size_set_present date (names ++ [shown]) names bucket E) as H.
    rewrite length_app in H. cbn [List.length] in H. lia.
  - rewrite get_set_same. eexists. split; [reflexivity|].
    split; [now apply keys_set_NoDup, keys_set_NoDup|].
    pose proof (size_set_present date ([] ++ [shown]) [] (PyDict.set date [] bucket)
                  (get_set_same date [] bucket)) as H.
    rewrite (size_set_absent date [] bucket E) in H.
    cbn [List.length app] in H. cbn [app]. lia.
Qed.

Lemma store_tasks_sizes tasks_data :
  forall past future,
    NoDup (PyDict.keys past) -> NoDup (PyDict.keys future) ->
    exists past' future',
      store_tasks [(_ASANA_TIMEFRAME_COMPLETED, past);
                   (_ASANA_TIMEFRAME_NOT_COMPLETED, future)] tasks_data
      = Ok [(_ASANA_TIMEFRAME_COMPLETED, past');
            (_ASANA_TIMEFRAME_NOT_COMPLETED, future')]
      /\ NoDup (PyDict.keys past') /\ NoDup (PyDict.keys future')
      /\ bucket_size past'
         = (bucket_size past + List.length (filter task_completed tasks_data))%nat
      /\ bucket_size future'
         = (bucket_size future
            + List.length (filter (fun t => negb (task_completed t)) tasks_data))%nat.
Proof.
  induction tasks_data as [|t more IH]; intros past future Hp Hf.
  - exists past, future. simpl. repeat split; auto.
  - cbn [store_tasks]. unfold store_task, task_group_of, task_date_of.
    destruct (task_completed t) eqn:Ec.
    + cbn [PyDict.get String.eqb Ascii.eqb Bool.eqb _ASANA_TIMEFRAME_COMPLETED
           _ASANA_TIMEFRAME_NOT_COMPLETED andb].
      set (date := date_key (task_completed_at t)).
      destruct (bucket_append_size past date (display_name date t) Hp)
        as [past1 [E [Hp1 Hs1]]].
      cbv zeta in E.
      destruct (PyDict.get date
                  (if negb (PyDict.mem date past) then PyDict.set date [] past else past))
        as [names|]; [|discriminate].
      injection E as E. rewrite E.
      cbn [bind PyDict.set String.eqb Ascii.eqb Bool.eqb andb].
      destruct (IH past1 future Hp1 Hf) as [past' [future' [E' [H1 [H2 [H3 H4]]]]]].
      exists past', future'. split; [exact E'|]. split; [exact H1|]. split; [exact H2|].
      cbn [filter negb]. rewrite Ec. cbn [negb List.length]. split; lia.
    + cbn [PyDict.get String.eqb Ascii.eqb Bool.eqb _ASANA_TIMEFRAME_COMPLETED
           _ASANA_TIMEFRAME_NOT_COMPLETED andb].
      set (date := date_key (task_due_on t)).
      destruct (bucket_append_size future date (display_name date t) Hf)
        as [future1 [E [Hf1 Hs1]]].
      cbv zeta in E.
      destruct (PyDict.get date
                  (if negb (PyDict.mem date future) then PyDict.set date [] future
                   else future))
        as [names|]; [|discriminate].
      injection E as E. rewrite E.
      cbn [bind PyDict.set String.eqb Ascii.eqb Bool.eqb andb].
      destruct (IH past future1 Hp Hf1) as [past' [future' [E' [H1 [H2 [H3 H4]]]]]].
      exists past', future'. split; [exact E'|]. split; [exact H1|]. split; [exact H2|].
      cbn [filter negb]. rewrite Ec. cbn [negb List.length]. split; lia.
Qed.

Lemma length_concat_Permutation {A : Type} (l l' : list (list A)) :
  Permutation l l' -> List.length (concat l) = List.length (concat l').
Proof.
  induction 1; simpl; rewrite ?length_app; lia.
Qed.

Lemma values_by_keys {V : Type} (default : V) (d : dict V) :
  NoDup (PyDict.keys d) ->
  map (fun key => PyDict.get_default key default d) (PyDict.keys d) = PyDict.values d.
Proof.
  induction d as [|[k v] d IH]; simpl; [reflexivity|].
  intros Hnd. inversion Hnd as [|? ? Hnot Hrest]; subst.
  unfold PyDict.get_default at 1. simpl. rewrite String.eqb_refl. f_equal.
  rewrite <- (IH Hrest). apply map_ext_in. intros key Hkey.
  unfold PyDict.get_default. simpl.
  destruct (String.eqb_spec k key) as [->|Hne]; [contradiction | reflexivity].
Qed.

Lemma filter_all {A : Type} (f : A -> bool) (l : list A) :
  (forall x, f x = true) -> filter f l = l.
Proof.
  intros H. induction l as [|x l IH]; simpl; [reflexivity|]. now rewrite H, IH.
Qed.

(** A counter on the future with the horizon ['all'] counts the tasks that
    are not completed: once the fetched tasks are bucketed, its value is
    their number, whatever their due dates and whatever the day. *)
Theorem counter_future_all_counts_open_tasks
    (today : Z) (tasks_data : list task) (variable : string) :
  exists data,
    _store_task_data tasks_data = Ok data
    /\ variable_value today data (mkVariable variable "counter" "future" DateAll)
       = Ok (PyInt (Z.of_nat
                      (List.length (filter (fun t => negb (task_completed t)) tasks_data)))).
Proof.
  destruct (store_tasks_sizes tasks_data [] [] (NoDup_nil _) (NoDup_nil _))
    as [past [future [E [_ [Hf [_ Hsize]]]]]].
  eexists. split; [exact E|].
  unfold variable_value.
  cbn [var_timeframe var_task_date var_sensor_type variable_date_of bind
       PyDict.get_default PyDict.get String.eqb Ascii.eqb Bool.eqb andb
       _ASANA_TIMEFRAME_COMPLETED _ASANA_TIMEFRAME_NOT_COMPLETED
       _ASANA_SENSOR_TYPE_LIST].
  do 3 f_equal.
  unfold matching_task_list. rewrite matching_fold. cbn [app].
  rewrite filter_all by reflexivity.
  rewrite (length_concat_Permutation _ (map (fun key => PyDict.get_default key [] future)
                                            (PyDict.keys future))).
  - rewrite (values_by_keys [] future Hf). exact Hsize.
  - apply Permutation_map, Permutation_sym, sorted_ascending.
Qed.

Example open_tasks_counted :
  variable_value 738893
    [("past", [("2024-01-07", ["2024-01-07 - call home"])]);
     ("future", [("2024-02-01", ["2024-02-01 - pay rent"; "2024-02-01 - file taxes"]);
                 ("all", ["water the plants"])])]
    (mkVariable "counter_future_all" "counter" "future" DateAll)
  = Ok (PyInt 3).
Proof. reflexivity. Qed.

(** ** When a name has a horizon *)

Lemma span_digits_split s :
  s = (fst (span_digits s) ++ snd (span_digits s))%string.
Proof.
  induction s as [|c s IH]; simpl; [reflexivity|].
  destruct (PyStr.is_digit c); [|reflexivity].
  destruct (span_digits s) as [ds rest]. simpl in *. now rewrite <- IH.
Qed.

Lemma span_digits_stop ds c rest :
  all_digits ds = true -> PyStr.is_digit c = false ->
  span_digits (ds ++ String c rest) = (ds, String c rest).
Proof.
  intros Hd Hc. induction ds as [|x ds IH]; simpl.
  - now rewrite Hc.
  - simpl in Hd. apply andb_prop in Hd. destruct Hd as [Hx Hds].
    now rewrite Hx, (IH Hds).
Qed.

Lemma d_is_no_digit c : PyStr.lower_char c = "d"%char -> PyStr.is_digit c = false.
Proof.
  destruct c as [[] [] [] [] [] [] [] []]; try reflexivity; discriminate.
Qed.

Lemma prefix_nocase_day rest : prefix_nocase "day" rest = true <-> day_any_case rest.
Proof.
  unfold day_any_case. split.
  - destruct rest as [|d [|a [|y rest]]]; cbn [prefix_nocase];
      rewrite ?andb_false_r; try discriminate.
    intros H. apply andb_prop in H. destruct H as [Hd H].
    apply andb_prop in H. destruct H as [Ha H].
    apply andb_prop in H. destruct H as [Hy _].
    apply Ascii.eqb_eq in Hd, Ha, Hy.
    exists d, a, y, rest. repeat split; symmetry; assumption.
  - intros [d [a [y [r [-> [Hd [Ha Hy]]]]]]]. cbn [prefix_nocase].
    rewrite Hd, Ha, Hy. reflexivity.
Qed.

(** The pattern [([\d]+)(?:day)] at the head of a string. *)
Lemma match_days_at_iff s ds :
  match_days_at s = Some ds
  <-> ds <> EmptyString /\ all_digits ds = true
      /\ exists rest, s = (ds ++ rest)%string /\ day_any_case rest.
Proof.
  unfold match_days_at. split.
  - pose proof (span_digits_split s) as Hs.
    pose proof (span_digits_all_digits s) as Hd.
    destruct (span_digits s) as [ds' rest]. simpl in Hs, Hd.
    destruct (PyStr.truthy ds') eqn:Et; [|discriminate].
    destruct (prefix_nocase "day" rest) eqn:Ep; [|discriminate].
    intros [= <-]. split; [now destruct ds'|]. split; [exact Hd|].
    exists rest. split; [exact Hs | now apply prefix_nocase_day].
  - intros [Hne [Hd [rest [-> Hday]]]].
    pose proof Hday as [d [a [y [r [-> [Ed _]]]]]].
    rewrite (span_digits_stop ds d _ Hd (d_is_no_digit d Ed)).
    apply prefix_nocase_day in Hday. rewrite Hday.
    destruct ds; [congruence | reflexivity].
Qed.

Lemma search_days_None_iff s :
  search_days s = None
  <-> forall a t, s = (a ++ "_" ++ t)%string -> match_days_at t = None.
Proof.
  induction s as [|c s IH]; simpl.
  - split; [|reflexivity]. intros _ [|x a] t; discriminate.
  - destruct (Ascii.eqb_spec c "_") as [->|Hne].
    + destruct (match_days_at s) as [ds|] eqn:Em.
      * split; [discriminate|]. intros H.
        specialize (H EmptyString s eq_refl). congruence.
      * rewrite IH. split.
        -- intros H [|x a] t E; simpl in E; injection E as E; subst; eauto.
        -- intros H a t ->. apply (H (String "_" a) t). reflexivity.
    + rewrite IH. split.
      * intros H [|x a] t E; simpl in E; injection E as E1 E2; subst;
          [congruence | eauto].
      * intros H a t ->. apply (H (String c a) t). reflexivity.
Qed.

Lemma search_days_Some s ds :
  search_days s = Some ds ->
  exists a t, s = (a ++ "_" ++ t)%string /\ match_days_at t = Some ds.
Proof.
  induction s as [|c s IH]; simpl; [discriminate|].
  destruct (Ascii.eqb_spec c "_") as [->|Hne].
  - destruct (match_days_at s) as [ds'|] eqn:Em.
    + intros [= <-]. now exists EmptyString, s.
    + intros H. destruct (IH H) as [a [t [-> Ht]]]. now exists (String "_" a), t.
  - intros H. destruct (IH H) as [a [t [-> Ht]]]. now exists (String c a), t.
Qed.

(** [_get_days_from_monitored_variable] finds no horizon exactly in the
    names that neither contain ["all"] nor have an underscore followed by
    one digit or more and the letters [day] in any case; and a day count it
    returns is the number such digits stand for. *)
Theorem days_missing_iff_no_pattern (variable : string) :
  let has_all := exists a b, variable = (a ++ "all" ++ b)%string in
  let has_days := fun digits =>
    exists a rest,
      variable = (a ++ "_" ++ digits ++ rest)%string
      /\ digits <> EmptyString /\ all_digits digits = true /\ day_any_case rest in
  (_get_days_from_monitored_variable variable = None
   <-> ~ has_all /\ ~ exists digits, has_days digits)
  /\ (forall n,
        _get_days_from_monitored_variable variable = Some (DateDays n) ->
        ~ has_all /\ exists digits, has_days digits /\ n = PyStr.int_of_digits digits)
  /\ (_get_days_from_monitored_variable variable = Some DateAll <-> has_all).
Proof.
  intros has_all has_days. unfold _get_days_from_monitored_variable.
  pose proof (contains_app _ASANA_TASK_DATE_ALL variable) as Hall.
  fold has_all in Hall.
  destruct (PyStr.contains _ASANA_TASK_DATE_ALL variable) eqn:Ec.
  - assert (Hyes : has_all) by now apply Hall.
    split; [split; [discriminate | tauto]|]. split; [discriminate|]. tauto.
  - assert (Hno : ~ has_all) by (intros H; apply Hall in H; discriminate).
    split; [|split].
    + destruct (search_days variable) as [ds|] eqn:Es.
      * split; [discriminate|]. intros [_ Hnone]. exfalso. apply Hnone.
        destruct (search_days_Some _ _ Es) as [a [t [-> Ht]]].
        apply match_days_at_iff in Ht. destruct Ht as [Hne [Hd [rest [-> Hday]]]].
        exists ds, a, rest. repeat split; auto.
      * split; [|reflexivity]. intros _. split; [exact Hno|].
        intros [digits [a [rest [-> [Hne [Hd Hday]]]]]].
        rewrite search_days_None_iff in Es.
        specialize (Es a (digits ++ rest)%string eq_refl).
        assert (Hm : match_days_at (digits ++ rest) = Some digits)
          by (apply match_days_at_iff; eauto).
        congruence.
    + intros n. destruct (search_days variable) as [ds|] eqn:Es; [|discriminate].
      intros [= <-]. split; [exact Hno|].
      destruct (search_days_Some _ _ Es) as [a [t [-> Ht]]].
      apply match_days_at_iff in Ht. destruct Ht as [Hne [Hd [rest [-> Hday]]]].
      exists ds. split; [|reflexivity]. exists a, rest. repeat split; auto.
    + split; [|tauto]. destruct (search_days variable); discriminate.
Qed.

Example horizon_samples :
  _get_days_from_monitored_variable "list_past_7DaYs" = Some (DateDays 7)
  /\ _get_days_from_monitored_variable "list_past_7" = None
  /\ _get_days_from_monitored_variable "list_past7day" = None
  /\ _get_days_from_monitored_variable "list_x_1_007day" = Some (DateDays 7)
  /\ _get_days_from_monitored_variable "small_future_1day" = Some DateAll.
Proof. repeat split; reflexivity. Qed.

(** ** A past rule without bound, on dated tasks *)

Lemma digit_key_below_all c rest :
  PyStr.is_digit c = true -> PyStr.ge (String c rest) _ASANA_TASK_DATE_ALL = false.
Proof.
  destruct c as [[] [] [] [] [] [] [] []]; try discriminate; reflexivity.
Qed.

Lemma filter_none {A : Type} (f : A -> bool) (l : list A) :
  (forall x, In x l -> f x = false) -> filter f l = [].
Proof.
  induction l as [|x l IH]; simpl; [reflexivity|]. intros H.
  rewrite (H x (or_introl eq_refl)). apply IH. intros y Hy. apply H. now right.
Qed.

(** A rule on the past with the horizon ['all'] never selects a task that
    has a date: when the completion timestamps of the fetched tasks start
    with a digit, as ISO timestamps do, its list is empty and its counter is
    0, whatever the tasks and the day. *)
Theorem past_all_rule_selects_no_dated_task
    (today : Z) (tasks_data : list task) (variable kind : string) :
  (forall t c rest,
      In t tasks_data -> task_completed t = true ->
      task_completed_at t = Some (String c rest) -> PyStr.is_digit c = true) ->
  exists data,
    _store_task_data tasks_data = Ok data
    /\ variable_value today data (mkVariable variable kind "past" DateAll)
       = Ok (if String.eqb kind "list" then PyList [] else PyInt 0).
Proof.
  intros Hiso.
  assert (H0 : holds empty_buckets []) by (exists [], []; repeat split).
  destruct (store_tasks_holds tasks_data empty_buckets [] H0)
    as [data [E [past [future [-> [Hp _]]]]]].
  simpl in Hp.
  eexists. split; [exact E|].
  unfold variable_value.
  cbn [var_timeframe var_task_date var_sensor_type variable_date_of bind
       PyDict.get_default PyDict.get String.eqb Ascii.eqb Bool.eqb andb
       _ASANA_TIMEFRAME_COMPLETED _ASANA_TIMEFRAME_NOT_COMPLETED].
  unfold matching_task_list. rewrite matching_fold. cbn [app].
  rewrite filter_none; [reflexivity|].
  intros key Hkey.
  apply (Permutation_in key (Permutation_sym (proj1 (sorted_ascending _)))) in Hkey.
  apply get_In in Hkey. rewrite Hp in Hkey.
  unfold shown_under in Hkey.
  destruct (filter (stored_under _ASANA_TIMEFRAME_COMPLETED key) tasks_data)
    as [|t others] eqn:Ef; [now destruct Hkey|].
  assert (Ht : In t (filter (stored_under _ASANA_TIMEFRAME_COMPLETED key) tasks_data))
    by (rewrite Ef; now left).
  apply filter_In in Ht. destruct Ht as [Hin Hst].
  unfold stored_under, task_group_of, task_date_of in Hst.
  destruct (task_completed t) eqn:Ec; [|discriminate].
  apply andb_prop in Hst. destruct Hst as [_ Hdate].
  apply String.eqb_eq in Hdate. subst key.
  unfold _task_day_matches_timeframe, date_key.
  cbn [String.eqb Ascii.eqb Bool.eqb andb _ASANA_TIMEFRAME_COMPLETED].
  destruct (task_completed_at t) as [[|c rest]|] eqn:Estamp; try reflexivity.
  cbn [PyStr.truthy PyStr.slice_to String.substring].
  destruct (String.eqb (String c (String.substring 0 9 rest)) _ASANA_TASK_DATE_ALL);
    [reflexivity|].
  apply digit_key_below_all. eapply Hiso; eauto.
Qed.

Lemma past_all_rule_selects_no_dated_task_witness :
  let tasks_data :=
    [mkTask "call home" true None (Some "2024-01-07T08:00:00.000Z");
     mkTask "pay rent" true None (Some "2023-12-31T23:59:59.000Z");
     mkTask "water the plants" false None None] in
  exists data,
    _store_task_data tasks_data = Ok data
    /\ variable_value 738893 data (mkVariable "counter_past_all" "counter" "past" DateAll)
       = Ok (PyInt 0).
Proof.
  intros tasks_data.
  apply (past_all_rule_selects_no_dated_task 738893 tasks_data "counter_past_all" "counter").
  intros t c rest [<-|[<-|[<-|[]]]] _; simpl; intros [= <- _]; reflexivity || discriminate.
Defined.

(** ** No task lost, none stored twice *)

Lemma filter_partition_length {A : Type} (f : A -> bool) (l : list A) :
  (List.length (filter f l) + List.length (filter (fun x => negb (f x)) l)
   = List.length l)%nat.
Proof.
  induction l as [|x l IH]; simpl; [reflexivity|].
  destruct (f x); simpl; lia.
Qed.

(** Bucketing puts every fetched task in one place: the keys of each
    timeframe are distinct, the past holds as many strings as there are
    completed tasks, the future as many as there are other tasks, and the two
    together as many as there are tasks. *)
Theorem bucketing_keeps_every_task_once (tasks_data : list task) :
  exists past future,
    _store_task_data tasks_data = Ok [("past", past); ("future", future)]
    /\ NoDup (PyDict.keys past) /\ NoDup (PyDict.keys future)
    /\ bucket_size past = List.length (filter task_completed tasks_data)
    /\ bucket_size future
       = List.length (filter (fun t => negb (task_completed t)) tasks_data)
    /\ (bucket_size past + bucket_size future = List.length tasks_data)%nat.
Proof.
  destruct (store_tasks_sizes tasks_data [] [] (NoDup_nil _) (NoDup_nil _))
    as [past [future [E [Hp [Hf [Sp Sf]]]]]].
  exists past, future. split; [exact E|]. split; [exact Hp|]. split; [exact Hf|].
  split; [exact Sp|]. split; [exact Sf|].
  rewrite Sp, Sf. apply filter_partition_length.
Qed.

(** ** The only exception of a cycle *)






(** ** Tasks without a date and bounded rules *)

Lemma pad_digits_head width n :
  exists c rest,
    PyStr.pad_digits (S width) n = String c rest /\ PyStr.is_digit c = true.
Proof.
  revert n. induction width as [|width IH]; intros n.
  - cbn [PyStr.pad_digits String.append]. eexists _, _. split; [reflexivity|].
    unfold PyStr.is_digit. rewrite N_ascii_embedding.
    + pose proof (Z.mod_pos_bound n 10 ltac:(lia)). apply andb_true_intro.
      split; apply N.leb_le; lia.
    + pose proof (Z.mod_pos_bound n 10 ltac:(lia)). lia.
  - destruct (IH (n / 10)) as [c [rest [E Hc]]].
    change (PyStr.pad_digits (S (S width)) n)
      with (PyStr.pad_digits (S width) (n / 10)
            ++ String (ascii_of_N (Z.to_N (48 + n mod 10))) EmptyString)%string.
    rewrite E. simpl. eauto.
Qed.

Lemma strftime_head d :
  exists c rest, Datetime.strftime_Ymd d = String c rest /\ PyStr.is_digit c = true.
Proof.
  unfold Datetime.strftime_Ymd. destruct (Datetime.ord2ymd d) as [[y m] dd].
  destruct (pad_digits_head 3 y) as [c [rest [E Hc]]]. rewrite E. simpl. eauto.
Qed.

(** The boundary of a rule with a day count starts with a digit. *)
Lemma bounded_boundary_head today rule n boundary :
  var_task_date rule = DateDays n ->
  variable_date_of today rule = Ok boundary ->
  exists c rest, boundary = String c rest /\ PyStr.is_digit c = true.
Proof.
  unfold variable_date_of. intros ->.
  destruct (Datetime.timedelta n) as [delta|]; cbn [bind]; [|discriminate].
  destruct (if String.eqb (var_timeframe rule) _ASANA_TIMEFRAME_COMPLETED
            then Datetime.sub today delta else Datetime.add today delta) as [b|];
    cbn [bind]; [|discriminate].
  intros [= <-]. apply strftime_head.
Qed.

(** A rule with a day count never selects the tasks without a date: the key
    ['all'] does not match on the past, and on the future it is above every
    boundary that is a date; so the result is the concatenation over the
    other keys alone. *)
Theorem bounded_rule_skips_undated_tasks
    (today : Z) (data : task_buckets) (rule : variable_config) (n : Z)
    (boundary : string) :
  var_task_date rule = DateDays n ->
  variable_date_of today rule = Ok boundary ->
  let timeframe := var_timeframe rule in
  let bucket := PyDict.get_default timeframe [] data in
  _task_day_matches_timeframe "all" timeframe boundary = false
  /\ matching_task_list bucket timeframe boundary
     = concat (map (fun key => PyDict.get_default key [] bucket)
                   (filter (fun key => negb (String.eqb key "all")
                                       && _task_day_matches_timeframe key timeframe boundary)
                           (sorted (PyDict.keys bucket)))).
Proof.
  intros Hdays Hdate timeframe bucket.
  destruct (bounded_boundary_head today rule n boundary Hdays Hdate)
    as [c [rest [-> Hc]]].
  assert (Hall : _task_day_matches_timeframe "all" timeframe (String c rest) = false).
  { unfold _task_day_matches_timeframe.
    destruct (String.eqb timeframe _ASANA_TIMEFRAME_COMPLETED); [reflexivity|].
    destruct (String.eqb timeframe _ASANA_TIMEFRAME_NOT_COMPLETED); [|reflexivity].
    replace (String.eqb (String c rest) _ASANA_TASK_DATE_ALL) with false.
    - apply (digit_key_below_all c rest Hc).
    - symmetry. apply String.eqb_neq. intros [= -> _]. discriminate. }
  split; [exact Hall|].
  unfold matching_task_list. rewrite matching_fold. cbn [app].
  do 2 f_equal. apply filter_ext. intros key.
  destruct (String.eqb_spec key "all") as [->|Hne]; [exact Hall | reflexivity].
Qed.

Lemma bounded_rule_skips_undated_tasks_witness :
  let data : task_buckets :=
    [("past", []);
     ("future", [("2024-02-01", ["2024-02-01 - pay rent"]); ("all", ["water the plants"]);
                 ("2024-01-10", ["2024-01-10 - call home"])])] in
  let rule := mkVariable "list_future_7day" "list" "future" (DateDays 7) in
  variable_date_of 738893 rule = Ok "2024-01-15"
  /\ _task_day_matches_timeframe "all" "future" "2024-01-15" = false
  /\ variable_value 738893 data rule = Ok (PyList ["2024-01-10 - call home"]).
Proof.
  intros data rule. split; [reflexivity|].
  destruct (bounded_rule_skips_undated_tasks 738893 data rule 7 "2024-01-15"
              eq_refl eq_refl) as [H _].
  split; [exact H | reflexivity].
Defined.
